(** * BridgeDownstream: the [sns_to_glue] lambda

    A shallow embedding of [src/lambda/sns_to_glue/app.py]: the schema
    resolver [get_json_schema], the header parser
    [parse_client_info_metadata], the archive validator [validate_data] and
    the entry point [lambda_handler] with its batch aggregation.

    Conventions of the embedding.
    - A Python exception is a value [Raise e] of the [result] type, threaded
      with a bind; nothing in [app.py] catches an exception except the
      [try]/[except json.JSONDecodeError] of [parse_client_info_metadata].
    - A Python [dict] with string keys is an insertion-ordered association
      list with unique keys ([pydict]): iteration order is observable in the
      dispatch loop of [lambda_handler].
    - Library and service calls (boto3, requests, synapseclient, jsonschema)
      are the fields of a [World] record; each may raise.
    - JSON decoding is library code: a text that the program decodes comes
      with the outcome of its decoding ([None] when the decoder raises
      [json.JSONDecodeError]). The records of an event are taken after the
      decoding of their body and message.
    - Header values are ASCII text, as the metadata of an S3 object is. *)

From Stdlib Require Import String Ascii List ZArith Bool Lia.
Import ListNotations.
Local Open Scope string_scope.
Local Open Scope list_scope.

Set Implicit Arguments.

(** ** Exceptions and the error monad *)

Module Py.

Inductive exn : Type :=
| KeyError (key : string)
| TypeError
| ValueError
| IndexError
| JSONDecodeError
| BadZipFile
| RequestException (what : string)
| ClientError (what : string).

Inductive result (A : Type) : Type :=
| Ok (a : A)
| Raise (e : exn).

Arguments Ok {A} a.
Arguments Raise {A} e.

Definition bind {A B : Type} (m : result A) (k : A -> result B) : result B :=
  match m with
  | Ok a => k a
  | Raise e => Raise e
  end.

(** [for x in xs: acc = body(acc, x)], stopping at the first exception. *)
Fixpoint for_each {A S : Type} (body : S -> A -> result S) (xs : list A) (s : S)
  : result S :=
  match xs with
  | [] => Ok s
  | x :: rest => bind (body s x) (for_each body rest)
  end.

End Py.

Export Py.

Notation "x <- m ;; k" := (bind m (fun x => k))
  (at level 61, m at next level, right associativity).

(** ** Python dictionaries with string keys *)

Section PyDict.

Variable V : Type.

Definition pydict : Type := list (string * V).

(** [d.get(k)] *)
Fixpoint dict_get (d : pydict) (k : string) : option V :=
  match d with
  | [] => None
  | (k', v) :: rest => if String.eqb k' k then Some v else dict_get rest k
  end.

(** [k in d] *)
Definition dict_mem (d : pydict) (k : string) : bool :=
  match dict_get d k with Some _ => true | None => false end.

(** [d[k]] *)
Definition dict_getitem (d : pydict) (k : string) : result V :=
  match dict_get d k with Some v => Ok v | None => Raise (KeyError k) end.

(** [d[k] = v]: an existing key keeps its place, a new key goes last. *)
Fixpoint dict_set (d : pydict) (k : string) (v : V) : pydict :=
  match d with
  | [] => [(k, v)]
  | (k', v') :: rest =>
      if String.eqb k' k then (k', v) :: rest else (k', v') :: dict_set rest k v
  end.

(** [d.keys()] *)
Definition dict_keys (d : pydict) : list string := map fst d.

End PyDict.

(** ** JSON values, as [json.loads] builds them *)

Unset Elimination Schemes.

Inductive json : Type :=
| JNull
| JBool (b : bool)
| JInt (z : Z)
| JFloat (repr : string)
| JStr (s : string)
| JList (l : list json)
| JObj (o : list (string * json)).

Set Elimination Schemes.

(** [j[k]] for a string key [k]: a [KeyError] on a dict without the key, a
    [TypeError] on every other value. *)
Definition json_getitem (j : json) (k : string) : result json :=
  match j with
  | JObj o => dict_getitem o k
  | _ => Raise TypeError
  end.

(** [s == j] where [s] is a [str]: values of other types compare unequal. *)
Definition str_eq_json (s : string) (j : json) : bool :=
  match j with
  | JStr t => String.eqb s t
  | _ => false
  end.

(** ** String helpers *)

Definition chars (s : string) : list ascii := list_ascii_of_string s.
Definition str (l : list ascii) : string := string_of_list_ascii l.

Fixpoint take_while {A : Type} (p : A -> bool) (l : list A) : list A :=
  match l with
  | [] => []
  | x :: rest => if p x then x :: take_while p rest else []
  end.

Fixpoint drop_while {A : Type} (p : A -> bool) (l : list A) : list A :=
  match l with
  | [] => []
  | x :: rest => if p x then drop_while p rest else l
  end.

Fixpoint starts_with (pre l : list ascii) : option (list ascii) :=
  match pre, l with
  | [], _ => Some l
  | _ :: _, [] => None
  | a :: pre', b :: l' => if Ascii.eqb a b then starts_with pre' l' else None
  end.

Definition is_slash (c : ascii) : bool := Ascii.eqb c "/"%char.
Definition not_slash (c : ascii) : bool := negb (is_slash c).

(** [os.path.basename(p)]: what follows the last slash. *)
Definition basename (p : string) : string :=
  str (rev (take_while not_slash (rev (chars p)))).

(** [os.path.dirname(p)]: what precedes the last slash, without its trailing
    slashes unless it consists of slashes only. *)
Definition dirname (p : string) : string :=
  let head := drop_while not_slash (rev (chars p)) in
  match drop_while is_slash head with
  | [] => str (rev head)
  | stripped => str (rev stripped)
  end.

(** ** The archive map ([archive-map.json])

    A key that the program reads with [d[k]] is a field of the record; the
    one key it tests with [in] before reading, ["jsonSchema"] of a top-level
    [anyOf] entry, is an optional field. *)

Record FileEntry : Type := {
  filename : string;
  jsonSchema : string
}.

Record AnyOfEntry : Type := {
  anyof_filename : string;
  anyof_jsonSchema : option string
}.

Module Assessment.
Record t : Type := {
  assessmentIdentifier : string;
  assessmentRevision : Z;
  files : list FileEntry
}.
End Assessment.

Module AppAssessment.
Record t : Type := {
  assessmentIdentifier : string;
  assessmentRevision : Z
}.
End AppAssessment.

Module App.
Record t : Type := {
  appId : string;
  assessments : list AppAssessment.t;
  default_files : list FileEntry;   (* app["default"]["files"] *)
  anyOf : list FileEntry
}.
End App.

Module ArchiveMap.
Record t : Type := {
  assessments : list Assessment.t;
  apps : list App.t;
  anyOf : list AnyOfEntry
}.
End ArchiveMap.

(** ** [get_json_schema] *)

Record JsonSchemaObj : Type := {
  url : option string;
  allowed_app_specific_files : option bool;
  error : option (list string);
  archive_map_version : option string
}.

Definition set_url (o : JsonSchemaObj) (u : string) : JsonSchemaObj :=
  {| url := Some u;
     allowed_app_specific_files := allowed_app_specific_files o;
     error := error o;
     archive_map_version := archive_map_version o |}.

Definition set_allowed (o : JsonSchemaObj) (b : bool) : JsonSchemaObj :=
  {| url := url o;
     allowed_app_specific_files := Some b;
     error := error o;
     archive_map_version := archive_map_version o |}.

Definition set_error (o : JsonSchemaObj) (e : list string) : JsonSchemaObj :=
  {| url := url o;
     allowed_app_specific_files := allowed_app_specific_files o;
     error := Some e;
     archive_map_version := archive_map_version o |}.

(** [for file in files: if file["filename"] == file_name: ...; break] *)
Fixpoint find_file (files : list FileEntry) (file_name : string)
  : option FileEntry :=
  match files with
  | [] => None
  | file :: rest =>
      if String.eqb (filename file) file_name then Some file
      else find_file rest file_name
  end.

(** The first loop: the first file called [file_name] of the first entry
    with the assessment's identifier and revision that has such a file. *)
Fixpoint scan_assessments (assessments : list Assessment.t) (file_name : string)
    (assessment_id : string) (assessment_revision : Z) : option string :=
  match assessments with
  | [] => None
  | assessment :: rest =>
      if String.eqb (Assessment.assessmentIdentifier assessment) assessment_id
         && Z.eqb (Assessment.assessmentRevision assessment) assessment_revision
      then
        match find_file (Assessment.files assessment) file_name with
        | Some file => Some (jsonSchema file)
        | None =>
            scan_assessments rest file_name assessment_id assessment_revision
        end
      else scan_assessments rest file_name assessment_id assessment_revision
  end.

(** [any([a["assessmentIdentifier"] == assessment_id and
    a["assessmentRevision"] == assessment_revision for a in app["assessments"]])] *)
Definition declares (app : App.t) (assessment_id : string)
    (assessment_revision : Z) : bool :=
  existsb
    (fun a =>
       String.eqb (AppAssessment.assessmentIdentifier a) assessment_id
       && Z.eqb (AppAssessment.assessmentRevision a) assessment_revision)
    (App.assessments app).

(** The body of [for app in archive_map["apps"]]. *)
Definition scan_app (file_name : string) (app_id : json)
    (assessment_id : string) (assessment_revision : Z)
    (json_schema_obj : JsonSchemaObj) (app : App.t) : JsonSchemaObj :=
  if str_eq_json (App.appId app) app_id then
    let allowed_app_specific_files :=
      declares app assessment_id assessment_revision in
    let json_schema_obj :=
      set_allowed json_schema_obj allowed_app_specific_files in
    if allowed_app_specific_files then
      let json_schema_obj :=
        match find_file (App.default_files app) file_name with
        | Some default_file => set_url json_schema_obj (jsonSchema default_file)
        | None => json_schema_obj
        end in
      match find_file (App.anyOf app) file_name with
      | Some file => set_url json_schema_obj (jsonSchema file)
      | None => json_schema_obj
      end
    else json_schema_obj
  else json_schema_obj.

(** The last loop: the first top-level [anyOf] entry called [file_name] that
    has a ["jsonSchema"] key. *)
Fixpoint find_anyof (entries : list AnyOfEntry) (file_name : string)
  : option string :=
  match entries with
  | [] => None
  | file :: rest =>
      if String.eqb (anyof_filename file) file_name then
        match anyof_jsonSchema file with
        | Some u => Some u
        | None => find_anyof rest file_name
        end
      else find_anyof rest file_name
  end.

Definition get_json_schema (environ : pydict string) (archive_map : ArchiveMap.t)
    (file_name : string) (app_id : json) (assessment_id : string)
    (assessment_revision : Z) : JsonSchemaObj :=
  let json_schema_obj :=
    {| url := None;
       allowed_app_specific_files := None;
       error := None;
       archive_map_version := dict_get environ "archive_map_version" |} in
  match scan_assessments (ArchiveMap.assessments archive_map) file_name
          assessment_id assessment_revision with
  | Some u => set_url json_schema_obj u
  | None =>
      let json_schema_obj :=
        fold_left (scan_app file_name app_id assessment_id assessment_revision)
          (ArchiveMap.apps archive_map) json_schema_obj in
      match url json_schema_obj with
      | Some _ => json_schema_obj
      | None =>
          match find_anyof (ArchiveMap.anyOf archive_map) file_name with
          | Some u => set_url json_schema_obj u
          | None => json_schema_obj
          end
      end
  end.

(** The [SchemaResolution] of the specification: the object without the
    archive map version. *)
Definition SchemaResolution : Type :=
  (option string * option bool * option (list string))%type.

Definition resolution (o : JsonSchemaObj) : SchemaResolution :=
  (url o, allowed_app_specific_files o, error o).

(** ** [parse_client_info_metadata] *)

Definition code (c : ascii) : nat := nat_of_ascii c.

(** The white space that [int] strips from an ASCII text: the space and the
    characters from the tabulation to the carriage return. *)
Definition is_space (c : ascii) : bool :=
  ((9 <=? code c) && (code c <=? 13) || (code c =? 32))%nat.

Definition is_digit (c : ascii) : bool :=
  ((48 <=? code c) && (code c <=? 57))%nat.

Definition digit_value (c : ascii) : Z := Z.of_nat (code c - 48).

(** Decimal digits, where single underscores may separate two digits. *)
Fixpoint digits_value (acc : Z) (after_digit : bool) (l : list ascii)
  : option Z :=
  match l with
  | [] => if after_digit then Some acc else None
  | c :: rest =>
      if is_digit c then digits_value (10 * acc + digit_value c) true rest
      else if Ascii.eqb c "_"%char && after_digit
           then digits_value acc false rest
           else None
  end.

Definition strip (l : list ascii) : list ascii :=
  rev (drop_while is_space (rev (drop_while is_space l))).

(** [sys.get_int_max_str_digits()], as the interpreter starts. *)
Definition int_max_str_digits : Z := 4300.

(** [int(s)] for a header value [s] (ASCII text): optional white space around
    an optional sign and decimal digits; a [ValueError] otherwise, and also
    for a text of more digits than the interpreter converts. *)
Definition py_int (s : string) : result Z :=
  let text := strip (chars s) in
  let signed :=
    match text with
    | c :: rest =>
        if Ascii.eqb c "-"%char then option_map Z.opp (digits_value 0 false rest)
        else if Ascii.eqb c "+"%char then digits_value 0 false rest
        else digits_value 0 false (c :: rest)
    | [] => None
    end in
  match signed with
  | Some z =>
      if (int_max_str_digits <? Z.of_nat (length (filter is_digit text)))%Z
      then Raise ValueError
      else Ok z
  | None => Raise ValueError
  end.

(** [int(v)] where [v] is [None] or a [str]. *)
Definition py_int_opt (v : option string) : result Z :=
  match v with
  | None => Raise TypeError
  | Some s => py_int s
  end.

Definition not_comma (c : ascii) : bool := negb (Ascii.eqb c ","%char).

(** [re.search(key + "[^,]+", s)]: the leftmost place where [key] is followed
    by a character other than a comma; the match extends over all of them. *)
Fixpoint re_search_field (key l : list ascii) : option (list ascii) :=
  let here :=
    match starts_with key l with
    | Some rest =>
        match take_while not_comma rest with
        | [] => None
        | v => Some (key ++ v)
        end
    | None => None
    end in
  match here with
  | Some m => Some m
  | None =>
      match l with
      | [] => None
      | _ :: l' => re_search_field key l'
      end
  end.

(** [s.split(sep)] for a separator of one character. *)
Fixpoint split_on (sep : ascii) (l : list ascii) : list (list ascii) :=
  match l with
  | [] => [[]]
  | c :: rest =>
      if Ascii.eqb c sep then [] :: split_on sep rest
      else
        match split_on sep rest with
        | piece :: pieces => (c :: piece) :: pieces
        | [] => [[c]]
        end
  end.

(** [search.group().split("=")[1]], or [None] without a match. *)
Definition field_value (search : option (list ascii)) : result (option string) :=
  match search with
  | None => Ok None
  | Some group =>
      match nth_error (split_on "="%char group) 1 with
      | Some v => Ok (Some (str v))
      | None => Raise IndexError
      end
  end.

Definition json_of_opt_str (v : option string) : json :=
  match v with
  | Some s => JStr s
  | None => JNull
  end.

(** [loads] is the outcome of [json.loads(client_info_str)]: [None] when it
    raises [json.JSONDecodeError]. *)
Definition parse_client_info_metadata (loads : option json)
    (client_info_str : string) : result json :=
  match loads with
  | Some client_info => Ok client_info
  | None =>
      let app_version_search :=
        re_search_field (chars "appVersion=") (chars client_info_str) in
      let os_name_search :=
        re_search_field (chars "osName=") (chars client_info_str) in
      app_version <- field_value app_version_search ;;
      os_name <- field_value os_name_search ;;
      version <- py_int_opt app_version ;;
      Ok (JObj [("appVersion", JInt version);
                ("osName", json_of_opt_str os_name);
                ("appName", JStr "mobile-toolbox")])
  end.

(** ** The services around the lambda *)

Definition StsToken : Type := pydict string.

Record ArchiveEntry : Type := {
  json_path : string;            (* a name of [z.namelist()] *)
  payload : option json          (* [json.load] of the entry, [None] when it
                                    raises [json.JSONDecodeError] *)
}.

Record S3Object : Type := {
  Metadata : pydict string;
  clientinfo_loads : option json; (* [json.loads(Metadata["clientinfo"])] *)
  Body : option (list ArchiveEntry) (* [None]: the body is no zip archive *)
}.

Record MessageParameters : Type := {
  source_bucket : string;
  source_key : string;
  raw_folder_id : string
}.

Record World : Type := {
  ssm_get_parameter : option string -> result string;
  syn_login : string -> result unit;
  requests_get_archive_map : string -> result ArchiveMap.t;
  get_sts_storage_token : string -> result StsToken;
  s3_get_object : StsToken -> string -> string -> result S3Object;
  requests_get_json : string -> result json;
  jsonschema_iter_errors : json -> json -> string -> result (list string);
  start_workflow_run : string -> result string;
  put_workflow_run_properties :
    string -> string -> list MessageParameters -> result unit
}.

(** An absent value in an f-string prints as [None]. *)
Definition fmt (v : option string) : string :=
  match v with
  | Some s => s
  | None => "None"
  end.

Definition get_archive_map (w : World) (version : option string)
  : result ArchiveMap.t :=
  let archive_map_url :=
    ("https://raw.githubusercontent.com/Sage-Bionetworks/mobile-client-json/"
     ++ fmt version ++ "/archive-map.json")%string in
  requests_get_archive_map w archive_map_url.

Definition validate_against_schema (w : World) (data schema : json)
    (base_uri : string) : result (list string) :=
  jsonschema_iter_errors w data schema base_uri.

(** ** [validate_data] *)

Module ValidationResult.
Record t : Type := {
  assessmendId : string;
  assessmentRevision : Z;
  appId : json;
  recordId : string;
  errors : pydict JsonSchemaObj
}.
End ValidationResult.

(** [validation_result["errors"][file_name] = json_schema_obj] *)
Definition record_error (validation_result : ValidationResult.t)
    (file_name : string) (json_schema_obj : JsonSchemaObj)
  : ValidationResult.t :=
  {| ValidationResult.assessmendId :=
       ValidationResult.assessmendId validation_result;
     ValidationResult.assessmentRevision :=
       ValidationResult.assessmentRevision validation_result;
     ValidationResult.appId := ValidationResult.appId validation_result;
     ValidationResult.recordId := ValidationResult.recordId validation_result;
     ValidationResult.errors :=
       dict_set (ValidationResult.errors validation_result) file_name
         json_schema_obj |}.

Definition load_payload (entry : ArchiveEntry) : result json :=
  match payload entry with
  | Some j => Ok j
  | None => Raise JSONDecodeError
  end.

(** The body of [for json_path in contents]. *)
Definition validate_entry (w : World) (environ : pydict string)
    (archive_map : ArchiveMap.t) (app_id : json) (assessment_id : string)
    (assessment_revision : Z) (validation_result : ValidationResult.t)
    (entry : ArchiveEntry) : result ValidationResult.t :=
  let file_name := basename (json_path entry) in
  let json_schema_obj :=
    get_json_schema environ archive_map file_name app_id assessment_id
      assessment_revision in
  match url json_schema_obj with
  | None => Ok validation_result
  | Some u =>
      json_schema <- requests_get_json w u ;;
      let base_uri := dirname u in
      j <- load_payload entry ;;
      if String.eqb (json_path entry) "taskData.json" then Ok validation_result
      else
        all_errors <- validate_against_schema w j json_schema base_uri ;;
        if (0 <? length all_errors)%nat
        then Ok (record_error validation_result file_name
                   (set_error json_schema_obj all_errors))
        else Ok validation_result
  end.

Definition open_zip (s3_obj : S3Object) : result (list ArchiveEntry) :=
  match Body s3_obj with
  | Some contents => Ok contents
  | None => Raise BadZipFile
  end.

(** Lines 108 to 118: the header of the object and the result to fill. *)
Definition new_validation_result (s3_obj : S3Object)
  : result ValidationResult.t :=
  assessment_id <- dict_getitem (Metadata s3_obj) "assessmentid" ;;
  revision <- dict_getitem (Metadata s3_obj) "assessmentrevision" ;;
  assessment_revision <- py_int revision ;;
  client_info_str <- dict_getitem (Metadata s3_obj) "clientinfo" ;;
  client_info <-
    parse_client_info_metadata (clientinfo_loads s3_obj) client_info_str ;;
  app_id <- json_getitem client_info "appName" ;;
  record_id <- dict_getitem (Metadata s3_obj) "recordid" ;;
  Ok {| ValidationResult.assessmendId := assessment_id;
        ValidationResult.assessmentRevision := assessment_revision;
        ValidationResult.appId := app_id;
        ValidationResult.recordId := record_id;
        ValidationResult.errors := [] |}.

Definition validate_data (w : World) (environ : pydict string)
    (message_parameters : MessageParameters) (archive_map : ArchiveMap.t)
    (sts_tokens : pydict StsToken) : result ValidationResult.t :=
  token <- dict_getitem sts_tokens (raw_folder_id message_parameters) ;;
  s3_obj <- s3_get_object w token (source_bucket message_parameters)
              (source_key message_parameters) ;;
  validation_result <- new_validation_result s3_obj ;;
  contents <- open_zip s3_obj ;;
  for_each
    (validate_entry w environ archive_map
       (ValidationResult.appId validation_result)
       (ValidationResult.assessmendId validation_result)
       (ValidationResult.assessmentRevision validation_result))
    contents validation_result.

(** ** [lambda_handler] *)

(** The calls of the handler that change something outside of it. *)
Inductive Effect : Type :=
| GlueStartWorkflowRun (name : string)
| GluePutWorkflowRunProperties (name run_id : string)
    (messages : list MessageParameters).

(** A computation that may raise and that extends the trace of the effects
    performed so far; the trace survives an exception. *)
Definition M (A : Type) : Type := list Effect -> list Effect * result A.

Definition ret {A : Type} (a : A) : M A := fun trace => (trace, Ok a).

Definition bindM {A B : Type} (m : M A) (k : A -> M B) : M B :=
  fun trace =>
    match m trace with
    | (trace', Ok a) => k a trace'
    | (trace', Raise e) => (trace', Raise e)
    end.

Definition lift {A : Type} (r : result A) : M A := fun trace => (trace, r).

Definition call {A : Type} (e : Effect) (r : result A) : M A :=
  fun trace => (trace ++ [e], r).

Notation "x <== m ;; k" := (bindM m (fun x => k))
  (at level 61, m at next level, right associativity).

Fixpoint for_each_M {A S : Type} (body : S -> A -> M S) (xs : list A) (s : S)
  : M S :=
  match xs with
  | [] => ret s
  | x :: rest => s' <== body s x ;; for_each_M body rest s'
  end.

Fixpoint iter_M {A : Type} (body : A -> M unit) (xs : list A) : M unit :=
  match xs with
  | [] => ret tt
  | x :: rest => _ <== body x ;; iter_M body rest
  end.

Definition update_sts_tokens (w : World) (synapse_data_folder : string)
    (sts_tokens : pydict StsToken) : result (pydict StsToken) :=
  if dict_mem sts_tokens synapse_data_folder then Ok sts_tokens
  else
    sts_token <- get_sts_storage_token w synapse_data_folder ;;
    Ok (dict_set sts_tokens synapse_data_folder sts_token).

(** [def mark_as_invalid(validation_result, sqs_queue): pass] *)
Definition mark_as_invalid (validation_result : ValidationResult.t)
    (sqs_queue : option string) : M unit :=
  ret tt.

(** The decoded [Message] of the body of an SQS record. *)
Module Message.
Record t : Type := {
  s3Bucket : string;             (* message["record"]["s3Bucket"] *)
  s3Key : string;                (* message["record"]["s3Key"] *)
  rawFolderId : string;          (* message["record"]["rawFolderId"] *)
  studyRecords : pydict json;
  appId : string
}.
End Message.

Definition Messages : Type := pydict (pydict (list MessageParameters)).

(** The body of [for study in related_studies]. The second lookup of
    [messages[app]] cannot fail: the first test has just created the entry. *)
Definition add_study (app : string) (message_parameters : MessageParameters)
    (messages : Messages) (study : string) : Messages :=
  let messages :=
    if dict_mem messages app then messages
    else dict_set messages app [(study, [])] in
  let of_app :=
    match dict_get messages app with
    | Some d => d
    | None => []
    end in
  match dict_get of_app study with
  | Some records =>
      dict_set messages app
        (dict_set of_app study (records ++ [message_parameters]))
  | None => dict_set messages app (dict_set of_app study [message_parameters])
  end.

Definition parameters_of (message : Message.t) : MessageParameters :=
  {| source_bucket := Message.s3Bucket message;
     source_key := Message.s3Key message;
     raw_folder_id := Message.rawFolderId message |}.

(** Lines 306 to 316: the record joins the batch of each of its studies. *)
Definition add_record (messages : Messages) (message : Message.t) : Messages :=
  let related_studies := dict_keys (Message.studyRecords message) in
  let app := Message.appId message in
  fold_left (add_study app (parameters_of message)) related_studies messages.

(** The batches of a whole event, from the empty dictionary. *)
Definition aggregate (event : list Message.t) : Messages :=
  fold_left add_record event [].

Record LoopState : Type := {
  messages : Messages;
  sts_tokens : pydict StsToken
}.

(** The body of [for record in event["Records"]]. *)
Definition process_record (w : World) (environ : pydict string)
    (archive_map : ArchiveMap.t) (st : LoopState) (message : Message.t)
  : M LoopState :=
  let message_parameters := parameters_of message in
  sts_tokens <== lift (update_sts_tokens w (raw_folder_id message_parameters)
                         (sts_tokens st)) ;;
  validation_result <==
    lift (validate_data w environ message_parameters archive_map sts_tokens) ;;
  _ <== (if (0 <? length (ValidationResult.errors validation_result))%nat
         then mark_as_invalid validation_result (dict_get environ "invalid_sqs")
         else ret tt) ;;
  ret {| messages := add_record (messages st) message;
         sts_tokens := sts_tokens |}.

Definition workflow_name_of (namespace : option string) (app study : string)
  : string :=
  (fmt namespace ++ "-" ++ app ++ "-" ++ study ++ "-S3ToJsonWorkflow")%string.

(** The body of [for study in messages[app]]. *)
Definition start_workflow (w : World) (namespace : option string)
    (app : string) (batch : string * list MessageParameters) : M unit :=
  let workflow_name := workflow_name_of namespace app (fst batch) in
  run_id <== call (GlueStartWorkflowRun workflow_name)
               (start_workflow_run w workflow_name) ;;
  call (GluePutWorkflowRunProperties workflow_name run_id (snd batch))
    (put_workflow_run_properties w workflow_name run_id (snd batch)).

Definition dispatch (w : World) (namespace : option string)
    (messages : Messages) : M unit :=
  iter_M (fun of_app => iter_M (start_workflow w namespace (fst of_app))
                          (snd of_app))
    messages.

Definition lambda_handler (w : World) (environ : pydict string)
    (event : list Message.t) : M unit :=
  let namespace := dict_get environ "NAMESPACE" in
  synapse_auth_token <==
    lift (ssm_get_parameter w (dict_get environ "ssm_parameter_name")) ;;
  _ <== lift (syn_login w synapse_auth_token) ;;
  archive_map <==
    lift (get_archive_map w (dict_get environ "archive_map_version")) ;;
  st <== for_each_M (process_record w environ archive_map) event
           {| messages := []; sts_tokens := [] |} ;;
  dispatch w namespace (messages st).

(** Running the handler from the empty trace. *)
Definition run (w : World) (environ : pydict string) (event : list Message.t)
  : list Effect * result unit :=
  lambda_handler w environ event [].

(** ** Reading the batches *)

(** [messages[app][study]], when both keys are present. *)
Definition group (messages : Messages) (app study : string)
  : option (list MessageParameters) :=
  match dict_get messages app with
  | Some of_app => dict_get of_app study
  | None => None
  end.

(** The records of an event that belong to [(app, study)], in the order of
    the event: a record counts once for each time [study] is a key of its
    [studyRecords] (once, for the keys of a dictionary). *)
Definition arrivals (app study : string) (event : list Message.t)
  : list MessageParameters :=
  flat_map
    (fun message =>
       if String.eqb (Message.appId message) app
       then map (fun _ => parameters_of message)
              (filter (fun s => String.eqb s study)
                 (dict_keys (Message.studyRecords message)))
       else [])
    event.

(** Whether a record belongs to the batch of [(app, study)]. *)
Definition belongs (app study : string) (message : Message.t) : bool :=
  String.eqb (Message.appId message) app
  && existsb (fun s => String.eqb s study)
       (dict_keys (Message.studyRecords message)).

(** A sequence that grows at its end, absent while nothing has arrived. *)
Definition extend {A : Type} (o : option (list A)) (l : list A)
  : option (list A) :=
  match l with
  | [] => o
  | _ :: _ => Some (match o with Some x => x | None => [] end ++ l)
  end.

(** ** Sample data *)

Module Sample.

Definition file (name schema : string) : FileEntry :=
  {| filename := name; jsonSchema := schema |}.

Definition A1_rev1 : AppAssessment.t :=
  {| AppAssessment.assessmentIdentifier := "A1";
     AppAssessment.assessmentRevision := 1 |}.

(** The archive map of the example of the specification. *)
Definition app1 : App.t :=
  {| App.appId := "app1";
     App.assessments := [A1_rev1];
     App.default_files := [];
     App.anyOf := [file "x.json" "http://s/default.json"] |}.

Definition archive_map : ArchiveMap.t :=
  {| ArchiveMap.assessments :=
       [{| Assessment.assessmentIdentifier := "A1";
           Assessment.assessmentRevision := 1;
           Assessment.files := [file "x.json" "http://s/a1.json"] |}];
     ArchiveMap.apps := [app1];
     ArchiveMap.anyOf := [] |}.

(** An app whose [default.files] and [anyOf] both list [x.json]. *)
Definition app_both : App.t :=
  {| App.appId := "app1";
     App.assessments := [A1_rev1];
     App.default_files :=
       [file "x.json" "http://s/default.json";
        file "y.json" "http://s/y.json"];
     App.anyOf :=
       [file "x.json" "http://s/anyof.json";
        file "z.json" "http://s/z.json"] |}.

Definition archive_map_both : ArchiveMap.t :=
  {| ArchiveMap.assessments := [];
     ArchiveMap.apps := [app_both];
     ArchiveMap.anyOf := [] |}.

(** An app that declares no assessment, next to an assessment entry. *)
Definition app_undeclared : App.t :=
  {| App.appId := "app1";
     App.assessments := [];
     App.default_files := [file "y.json" "http://s/y.json"];
     App.anyOf := [file "y.json" "http://s/y-any.json"] |}.

Definition archive_map_undeclared : ArchiveMap.t :=
  {| ArchiveMap.assessments :=
       [{| Assessment.assessmentIdentifier := "A1";
           Assessment.assessmentRevision := 1;
           Assessment.files := [file "x.json" "http://s/a1.json"] |}];
     ArchiveMap.apps := [app_undeclared];
     ArchiveMap.anyOf := [] |}.

(** A top-level [anyOf] that gives the task data a schema. *)
Definition archive_map_task : ArchiveMap.t :=
  {| ArchiveMap.assessments := [];
     ArchiveMap.apps := [];
     ArchiveMap.anyOf :=
       [{| anyof_filename := "taskData.json";
           anyof_jsonSchema := Some "http://s/task.json" |}] |}.

Definition environ : pydict string :=
  [("NAMESPACE", "ns"); ("archive_map_version", "v1");
   ("ssm_parameter_name", "/p"); ("invalid_sqs", "invalid-queue")].

Definition quoted (s : string) : string :=
  let q := String (ascii_of_nat 34) EmptyString in (q ++ s ++ q)%string.

(** A [clientinfo] header in JSON, and what [json.loads] makes of it. *)
Definition client_info_json : string :=
  ("{" ++ quoted "appName" ++ ": " ++ quoted "app1" ++ "}")%string.

Definition client_info : json := JObj [("appName", JStr "app1")].

Definition metadata (clientinfo : string) : pydict string :=
  [("assessmentid", "A1"); ("assessmentrevision", "1");
   ("clientinfo", clientinfo); ("recordid", "record-1")].

(** An archive with the header of [client_info] and the given entries. *)
Definition archive (entries : list ArchiveEntry) : S3Object :=
  {| Metadata := metadata client_info_json;
     clientinfo_loads := Some client_info;
     Body := Some entries |}.

(** An empty archive whose [clientinfo] header is no JSON text. *)
Definition archive_raw_header (clientinfo : string) : S3Object :=
  {| Metadata := metadata clientinfo;
     clientinfo_loads := None;
     Body := Some [] |}.

Definition entry (path : string) : ArchiveEntry :=
  {| json_path := path; payload := Some (JObj []) |}.

(** The objects of the bucket, by key. *)
Definition objects (key : string) : result S3Object :=
  if String.eqb key "k1" then Ok (archive [entry "x.json"])
  else if String.eqb key "k2" then Ok (archive [])
  else if String.eqb key "task" then Ok (archive [entry "taskData.json"])
  else if String.eqb key "task-text"
       then Ok (archive [{| json_path := "taskData.json"; payload := None |}])
  else if String.eqb key "garbage" then Ok (archive_raw_header "garbage")
  else if String.eqb key "kv"
       then Ok (archive_raw_header "appVersion=12,osName=Android")
  else Raise (ClientError "NoSuchKey").

(** A world where every service answers; [schemas] serves the schema
    documents and the validator reports [violations] for every payload. *)
Definition world (archive_map : ArchiveMap.t) (schemas : string -> result json)
    (violations : list string) : World :=
  {| ssm_get_parameter := fun _ => Ok "auth-token";
     syn_login := fun _ => Ok tt;
     requests_get_archive_map := fun _ => Ok archive_map;
     get_sts_storage_token := fun _ => Ok [("aws_access_key_id", "key")];
     s3_get_object := fun _ _ key => objects key;
     requests_get_json := schemas;
     jsonschema_iter_errors := fun _ _ _ => Ok violations;
     start_workflow_run := fun _ => Ok "run-1";
     put_workflow_run_properties := fun _ _ _ => Ok tt |}.

Definition online (u : string) : result json := Ok (JObj []).

Definition offline (u : string) : result json :=
  Raise (RequestException "ConnectionError").

Definition message (key : string) (studies : list string) : Message.t :=
  {| Message.s3Bucket := "bucket";
     Message.s3Key := key;
     Message.rawFolderId := "syn1";
     Message.studyRecords := map (fun s => (s, JObj [])) studies;
     Message.appId := "app1" |}.

Definition rec1 : Message.t := message "k1" ["s1"].
Definition rec2 : Message.t := message "k2" ["s1"; "s2"].

Definition tokens : pydict StsToken := [("syn1", [("aws_access_key_id", "key")])].

End Sample.
(** ** Reading the resolver and the dispatch *)

(** Where a schema of [file_name] can come from: a file of an entry with the
    assessment's identifier and revision, a file of an app with the given
    [appId] that declares the assessment, or a top-level [anyOf] entry. *)
Definition declared_for (archive_map : ArchiveMap.t) (file_name : string)
    (app_id : json) (assessment_id : string) (assessment_revision : Z)
    (u : string) : Prop :=
  (exists a file,
      In a (ArchiveMap.assessments archive_map)
      /\ Assessment.assessmentIdentifier a = assessment_id
      /\ Assessment.assessmentRevision a = assessment_revision
      /\ In file (Assessment.files a)
      /\ filename file = file_name
      /\ jsonSchema file = u)
  \/ (exists app file,
         In app (ArchiveMap.apps archive_map)
         /\ str_eq_json (App.appId app) app_id = true
         /\ declares app assessment_id assessment_revision = true
         /\ (In file (App.default_files app) \/ In file (App.anyOf app))
         /\ filename file = file_name
         /\ jsonSchema file = u)
  \/ (exists entry,
         In entry (ArchiveMap.anyOf archive_map)
         /\ anyof_filename entry = file_name
         /\ anyof_jsonSchema entry = Some u).

(** The last entry of [apps] with the given [appId], after [found]. *)
Definition last_matching (app_id : json) (apps : list App.t)
    (found : option App.t) : option App.t :=
  fold_left
    (fun found app => if str_eq_json (App.appId app) app_id then Some app
                      else found)
    apps found.

(** The batches in the order of the dispatch loop. *)
Definition batches (messages : Messages)
  : list (string * (string * list MessageParameters)) :=
  flat_map (fun of_app => map (pair (fst of_app)) (snd of_app)) messages.

(** The two calls that dispatch a batch, when the first one answers. *)
Definition dispatch_calls (w : World) (namespace : option string)
    (batch : string * (string * list MessageParameters)) : list Effect :=
  let workflow_name :=
    workflow_name_of namespace (fst batch) (fst (snd batch)) in
  match start_workflow_run w workflow_name with
  | Ok run_id =>
      [GlueStartWorkflowRun workflow_name;
       GluePutWorkflowRunProperties workflow_name run_id (snd (snd batch))]
  | Raise _ => [GlueStartWorkflowRun workflow_name]
  end.

(** Whether both calls for a batch answer. *)
Definition dispatchable (w : World) (namespace : option string)
    (batch : string * (string * list MessageParameters)) : Prop :=
  let workflow_name :=
    workflow_name_of namespace (fst batch) (fst (snd batch)) in
  exists run_id,
    start_workflow_run w workflow_name = Ok run_id
    /\ put_workflow_run_properties w workflow_name run_id (snd (snd batch))
       = Ok tt.

(** ** The first version of the lambda

    [src/lambda/sns_to_glue/app.py]: one SNS message names a Synapse file,
    whose S3 location becomes the input of one workflow run. The event and
    the answers of the services are JSON values, read with subscripts. *)

(** [j[0]] *)
Definition json_first (j : json) : result json :=
  match j with
  | JList (x :: _) => Ok x
  | JList [] => Raise IndexError
  | JStr (String c _) => Ok (JStr (String c EmptyString))
  | JStr EmptyString => Raise IndexError
  | JObj _ => Raise (KeyError "0")
  | _ => Raise TypeError
  end.

Definition SSM_PARAMETER_NAME : string := "/phil/sns_to_glue".
Definition GLUE_WORKFLOW_NAME : string := "s3_to_json_workflow".

Record SnsWorld : Type := {
  sns_ssm_get_parameter : string -> result json;
  sns_syn_login : json -> result unit;
  sns_syn_get : json -> result json;
  sns_start_workflow_run : string -> result json;
  sns_put_workflow_run_properties :
    string -> json -> pydict json -> result unit
}.

Inductive SnsEffect : Type :=
| SnsStartWorkflowRun (name : string)
| SnsPutWorkflowRunProperties (name : string) (run_id : json)
    (run_properties : pydict json).

Definition get_s3_loc (w : SnsWorld) (synapse_id auth_token : json)
  : result (pydict json) :=
  _ <- sns_syn_login w auth_token ;;
  f <- sns_syn_get w synapse_id ;;
  file_handle <- json_getitem f "_file_handle" ;;
  bucket <- json_getitem file_handle "bucketName" ;;
  file_handle <- json_getitem f "_file_handle" ;;
  key <- json_getitem file_handle "key" ;;
  Ok [("bucket", bucket); ("key", key)].

(** What [handler] does before it calls Glue. *)
Definition handler_s3_loc (w : SnsWorld) (sns_event : json)
  : result (pydict json) :=
  records <- json_getitem sns_event "Records" ;;
  record <- json_first records ;;
  sns <- json_getitem record "Sns" ;;
  message <- json_getitem sns "Message" ;;
  token <- sns_ssm_get_parameter w SSM_PARAMETER_NAME ;;
  parameter <- json_getitem token "Parameter" ;;
  auth_token <- json_getitem parameter "Value" ;;
  get_s3_loc w message auth_token.

Definition handler (w : SnsWorld) (sns_event : json)
  : list SnsEffect * result unit :=
  match handler_s3_loc w sns_event with
  | Raise e => ([], Raise e)
  | Ok s3_loc =>
      let started := [SnsStartWorkflowRun GLUE_WORKFLOW_NAME] in
      match sns_start_workflow_run w GLUE_WORKFLOW_NAME with
      | Raise e => (started, Raise e)
      | Ok workflow_run =>
          match
            run_id <- json_getitem workflow_run "RunId" ;;
            input_bucket <- dict_getitem s3_loc "bucket" ;;
            input_key <- dict_getitem s3_loc "key" ;;
            Ok (run_id,
                [("input_bucket", input_bucket); ("input_key", input_key)])
          with
          | Raise e => (started, Raise e)
          | Ok (run_id, run_properties) =>
              (started
               ++ [SnsPutWorkflowRunProperties GLUE_WORKFLOW_NAME run_id
                     run_properties],
               sns_put_workflow_run_properties w GLUE_WORKFLOW_NAME run_id
                 run_properties)
          end
      end
  end.

(** ** Reading the results *)

(** Two validation results with the same header. *)
Definition same_header (a b : ValidationResult.t) : Prop :=
  ValidationResult.assessmendId a = ValidationResult.assessmendId b
  /\ ValidationResult.assessmentRevision a
     = ValidationResult.assessmentRevision b
  /\ ValidationResult.appId a = ValidationResult.appId b
  /\ ValidationResult.recordId a = ValidationResult.recordId b.

(** Batches as the dispatch loop needs them: each app once, each study of an
    app once, and no batch without a record. *)
Definition well_formed (messages : Messages) : Prop :=
  NoDup (dict_keys messages)
  /\ forall app of_app,
      In (app, of_app) messages ->
      NoDup (dict_keys of_app)
      /\ forall study records, In (study, records) of_app -> records <> [].

(** Sample data for the first version of the lambda. *)
Module SnsSample.

Definition file_entity : json :=
  JObj [("_file_handle",
         JObj [("bucketName", JStr "bucket"); ("key", JStr "a/b.zip")])].

Definition world : SnsWorld :=
  {| sns_ssm_get_parameter :=
       fun _ => Ok (JObj [("Parameter", JObj [("Value", JStr "auth-token")])]);
     sns_syn_login := fun _ => Ok tt;
     sns_syn_get :=
       fun synapse_id =>
         match synapse_id with
         | JStr "syn1" => Ok file_entity
         | _ => Raise (RequestException "SynapseHTTPError")
         end;
     sns_start_workflow_run := fun _ => Ok (JObj [("RunId", JStr "run-1")]);
     sns_put_workflow_run_properties := fun _ _ _ => Ok tt |}.

Definition record (synapse_id : string) : json :=
  JObj [("Sns", JObj [("Message", JStr synapse_id)])].

Definition event (records : list json) : json :=
  JObj [("Records", JList records)].

End SnsSample.

(** What an error under the key [key] tells: an entry of this base name,
    other than [taskData.json], had a schema and violated it. *)
Definition error_in (environ : pydict string) (archive_map : ArchiveMap.t)
    (app_id : json) (assessment_id : string) (assessment_revision : Z)
    (contents : list ArchiveEntry) (key : string) (obj : JsonSchemaObj)
  : Prop :=
  exists entry all_errors,
    In entry contents
    /\ basename (json_path entry) = key
    /\ json_path entry <> "taskData.json"
    /\ all_errors <> []
    /\ url obj <> None
    /\ obj
       = set_error
           (get_json_schema environ archive_map key app_id assessment_id
              assessment_revision)
           all_errors.

(** Sample objects with a damaged header. *)
Module HeaderSample.

Definition world_of (s3_obj : S3Object) : World :=
  {| ssm_get_parameter := fun _ => Ok "auth-token";
     syn_login := fun _ => Ok tt;
     requests_get_archive_map := fun _ => Ok Sample.archive_map;
     get_sts_storage_token := fun _ => Ok [("aws_access_key_id", "key")];
     s3_get_object := fun _ _ _ => Ok s3_obj;
     requests_get_json := Sample.online;
     jsonschema_iter_errors := fun _ _ _ => Ok [];
     start_workflow_run := fun _ => Ok "run-1";
     put_workflow_run_properties := fun _ _ _ => Ok tt |}.

Definition no_assessment_id : S3Object :=
  {| Metadata :=
       [("assessmentrevision", "1");
        ("clientinfo", Sample.client_info_json); ("recordid", "record-1")];
     clientinfo_loads := Some Sample.client_info;
     Body := Some [] |}.

Definition revision_in_words : S3Object :=
  {| Metadata :=
       [("assessmentid", "A1"); ("assessmentrevision", "one");
        ("clientinfo", Sample.client_info_json); ("recordid", "record-1")];
     clientinfo_loads := Some Sample.client_info;
     Body := Some [] |}.

Definition empty_client_info : S3Object :=
  {| Metadata := Sample.metadata "{}";
     clientinfo_loads := Some (JObj []);
     Body := Some [] |}.

End HeaderSample.

(** A world where Glue refuses to start the workflow of one name. *)
Module DispatchSample.

Definition world (refused : string) : World :=
  {| ssm_get_parameter := fun _ => Ok "auth-token";
     syn_login := fun _ => Ok tt;
     requests_get_archive_map := fun _ => Ok Sample.archive_map;
     get_sts_storage_token := fun _ => Ok [("aws_access_key_id", "key")];
     s3_get_object := fun _ _ key => Sample.objects key;
     requests_get_json := Sample.online;
     jsonschema_iter_errors := fun _ _ _ => Ok [];
     start_workflow_run :=
       fun name => if String.eqb name refused
                   then Raise (ClientError "EntityNotFoundException")
                   else Ok "run-1";
     put_workflow_run_properties := fun _ _ _ => Ok tt |}.

End DispatchSample.

(** Two entries of the same assessment that list the same file. *)
Module DuplicateSample.

Definition first_entry : Assessment.t :=
  {| Assessment.assessmentIdentifier := "A1";
     Assessment.assessmentRevision := 1;
     Assessment.files := [Sample.file "x.json" "http://s/first.json"] |}.

Definition second_entry : Assessment.t :=
  {| Assessment.assessmentIdentifier := "A1";
     Assessment.assessmentRevision := 1;
     Assessment.files := [Sample.file "x.json" "http://s/second.json"] |}.

Definition archive_map : ArchiveMap.t :=
  {| ArchiveMap.assessments := [first_entry; second_entry];
     ArchiveMap.apps := [Sample.app1];
     ArchiveMap.anyOf := [] |}.

End DuplicateSample.

(** An archive without entries whose [clientinfo] header is no JSON text and
    has the field [appVersion] alone. *)
Module RawHeaderSample.

Definition version_only : S3Object :=
  Sample.archive_raw_header "appVersion=12".

Definition world : World :=
  {| ssm_get_parameter := fun _ => Ok "auth-token";
     syn_login := fun _ => Ok tt;
     requests_get_archive_map := fun _ => Ok Sample.archive_map;
     get_sts_storage_token := fun _ => Ok [("aws_access_key_id", "key")];
     s3_get_object := fun _ _ _ => Ok version_only;
     requests_get_json := Sample.online;
     jsonschema_iter_errors := fun _ _ _ => Ok [];
     start_workflow_run := fun _ => Ok "run-1";
     put_workflow_run_properties := fun _ _ _ => Ok tt |}.

End RawHeaderSample.

(** * Properties *)

(** ** Dictionaries *)

Section PyDictFacts.

Variable V : Type.
Implicit Types (d : pydict V) (k : string) (v : V).

Lemma dict_get_set_same d k v : dict_get (dict_set d k v) k = Some v.
Proof.
  induction d as [|[k' v'] d IH]; simpl.
  - now rewrite String.eqb_refl.
  - destruct (String.eqb k' k) eqn:E; simpl; rewrite E; auto.
Qed.

Lemma dict_get_set_other d k k' v :
  k <> k' -> dict_get (dict_set d k v) k' = dict_get d k'.
Proof.
  intros Hne. induction d as [|[k0 v0] d IH]; simpl.
  - destruct (String.eqb k k') eqn:E; auto.
    apply String.eqb_eq in E. contradiction.
  - destruct (String.eqb k0 k) eqn:E; simpl.
    + apply String.eqb_eq in E. subst k0.
      destruct (String.eqb k k') eqn:E'; auto.
      apply String.eqb_eq in E'. contradiction.
    + now rewrite IH.
Qed.

End PyDictFacts.

(** ** The resolver *)

Section Resolver.

Variables (file_name : string) (app_id : json).
Variables (assessment_id : string) (assessment_revision : Z).

Lemma find_file_some files file :
  find_file files file_name = Some file ->
  In file files /\ filename file = file_name.
Proof.
  induction files as [|f files IH]; simpl; [discriminate|].
  destruct (String.eqb (filename f) file_name) eqn:E.
  - intros [= <-]. apply String.eqb_eq in E. auto.
  - intros H. destruct (IH H). auto.
Qed.

Lemma find_file_listed files file :
  In file files -> filename file = file_name ->
  exists first, find_file files file_name = Some first.
Proof.
  induction files as [|f files IH]; simpl; [tauto|].
  intros [-> | Hin] Hname.
  - rewrite Hname, String.eqb_refl. eauto.
  - destruct (String.eqb (filename f) file_name); eauto.
Qed.

Lemma scan_assessments_some assessments u :
  scan_assessments assessments file_name assessment_id assessment_revision
  = Some u ->
  exists a file,
    In a assessments
    /\ Assessment.assessmentIdentifier a = assessment_id
    /\ Assessment.assessmentRevision a = assessment_revision
    /\ In file (Assessment.files a)
    /\ filename file = file_name
    /\ jsonSchema file = u.
Proof.
  induction assessments as [|a assessments IH]; simpl; [discriminate|].
  destruct (String.eqb (Assessment.assessmentIdentifier a) assessment_id
            && Z.eqb (Assessment.assessmentRevision a) assessment_revision)
    eqn:E.
  - destruct (find_file (Assessment.files a) file_name) as [file|] eqn:F.
    + intros [= <-]. apply andb_true_iff in E as [E1 E2].
      apply String.eqb_eq in E1. apply Z.eqb_eq in E2.
      apply find_file_some in F as [F1 F2].
      exists a, file. auto 10.
    + intros H. destruct (IH H) as (a' & file & Hin & rest).
      exists a', file. auto.
  - intros H. destruct (IH H) as (a' & file & Hin & rest).
    exists a', file. auto.
Qed.

Lemma scan_assessments_listed assessments a file :
  In a assessments ->
  Assessment.assessmentIdentifier a = assessment_id ->
  Assessment.assessmentRevision a = assessment_revision ->
  In file (Assessment.files a) ->
  filename file = file_name ->
  exists u,
    scan_assessments assessments file_name assessment_id assessment_revision
    = Some u.
Proof.
  intros Hin Hid Hrev Hfile Hname.
  induction assessments as [|a0 assessments IH]; simpl; [contradiction|].
  destruct Hin as [-> | Hin].
  - rewrite Hid, Hrev, String.eqb_refl, Z.eqb_refl. simpl.
    destruct (find_file_listed _ _ Hfile Hname) as [first ->]. eauto.
  - destruct (_ && _); [destruct (find_file _ _)|]; eauto.
Qed.

(** An app of another [appId] leaves the object as it is. *)
Lemma scan_app_other o app :
  str_eq_json (App.appId app) app_id = false ->
  scan_app file_name app_id assessment_id assessment_revision o app = o.
Proof. unfold scan_app. now intros ->. Qed.

Lemma scan_apps_other apps o :
  (forall a, In a apps -> str_eq_json (App.appId a) app_id = false) ->
  fold_left (scan_app file_name app_id assessment_id assessment_revision) apps o
  = o.
Proof.
  revert o. induction apps as [|a apps IH]; simpl; intros o H; [easy|].
  rewrite scan_app_other by auto. auto.
Qed.

(** An app of this [appId] that does not declare the assessment sets the
    flag and reads none of its files. *)
Lemma scan_app_undeclared o app :
  str_eq_json (App.appId app) app_id = true ->
  declares app assessment_id assessment_revision = false ->
  scan_app file_name app_id assessment_id assessment_revision o app
  = set_allowed o false.
Proof. unfold scan_app. now intros -> ->. Qed.

(** An app of this [appId] that declares the assessment: the first match of
    [anyOf], else the first match of [default.files], else the URL that the
    object already has. *)
Lemma scan_app_declared o app :
  str_eq_json (App.appId app) app_id = true ->
  declares app assessment_id assessment_revision = true ->
  scan_app file_name app_id assessment_id assessment_revision o app
  = match find_file (App.anyOf app) file_name,
          find_file (App.default_files app) file_name with
    | Some file, _ => set_url (set_allowed o true) (jsonSchema file)
    | None, Some default_file =>
        set_url (set_allowed o true) (jsonSchema default_file)
    | None, None => set_allowed o true
    end.
Proof.
  unfold scan_app. intros -> ->.
  destruct (find_file (App.anyOf app) file_name),
           (find_file (App.default_files app) file_name); reflexivity.
Qed.

(** The version of the archive map is the only thing that the object takes
    from the environment. *)
Lemma scan_app_resolution o1 o2 app :
  resolution o1 = resolution o2 ->
  resolution (scan_app file_name app_id assessment_id assessment_revision o1 app)
  = resolution (scan_app file_name app_id assessment_id assessment_revision o2 app).
Proof.
  unfold scan_app, resolution. intros [= Hu Ha He].
  destruct (str_eq_json _ _); [|congruence].
  destruct (declares _ _ _); simpl; [|congruence].
  destruct (find_file (App.default_files app) file_name),
           (find_file (App.anyOf app) file_name); simpl; congruence.
Qed.

Lemma scan_apps_resolution apps o1 o2 :
  resolution o1 = resolution o2 ->
  resolution
    (fold_left (scan_app file_name app_id assessment_id assessment_revision)
       apps o1)
  = resolution
      (fold_left (scan_app file_name app_id assessment_id assessment_revision)
         apps o2).
Proof.
  revert o1 o2. induction apps as [|a apps IH]; simpl; intros o1 o2 H; [easy|].
  apply IH. now apply scan_app_resolution.
Qed.

End Resolver.

(** C1, as the code has it. In the app tier of [get_json_schema] (no
    assessment entry resolves the file, and [app] is the last entry of
    [apps] with the given [appId] and declares the assessment),
    [default.files] is scanned first and its first match is the URL when the
    [anyOf] of the app does not list the file; when [default.files] has no
    match, the first match of [anyOf] is the URL. *)
Theorem app_tier_default_then_anyOf
    (environ : pydict string) (assessments : list Assessment.t)
    (before : list App.t) (app : App.t) (after : list App.t)
    (anyOf : list AnyOfEntry) (file_name : string) (app_id : json)
    (assessment_id : string) (assessment_revision : Z) :
  scan_assessments assessments file_name assessment_id assessment_revision
  = None ->
  str_eq_json (App.appId app) app_id = true ->
  (forall a, In a after -> str_eq_json (App.appId a) app_id = false) ->
  declares app assessment_id assessment_revision = true ->
  (forall default_file,
      find_file (App.default_files app) file_name = Some default_file ->
      find_file (App.anyOf app) file_name = None ->
      url (get_json_schema environ
             (ArchiveMap.Build_t assessments (before ++ app :: after) anyOf)
             file_name app_id assessment_id assessment_revision)
      = Some (jsonSchema default_file))
  /\ (forall file,
         find_file (App.default_files app) file_name = None ->
         find_file (App.anyOf app) file_name = Some file ->
         url (get_json_schema environ
                (ArchiveMap.Build_t assessments (before ++ app :: after) anyOf)
                file_name app_id assessment_id assessment_revision)
         = Some (jsonSchema file)).
Proof.
  intros Hscan Hid Hafter Hdecl.
  unfold get_json_schema. simpl. rewrite Hscan, fold_left_app. simpl.
  rewrite scan_app_declared, scan_apps_other by assumption.
  split.
  - intros default_file Hdefault Hany. now rewrite Hany, Hdefault.
  - intros file Hdefault Hany. now rewrite Hany.
Qed.

Lemma app_tier_default_then_anyOf_witness :
  url (get_json_schema Sample.environ Sample.archive_map_both "y.json"
         (JStr "app1") "A1" 1)
  = Some "http://s/y.json".
Proof.
  refine (proj1
            (@app_tier_default_then_anyOf Sample.environ [] [] Sample.app_both
               [] [] "y.json" (JStr "app1") "A1" 1%Z eq_refl eq_refl _ eq_refl)
            (Sample.file "y.json" "http://s/y.json") eq_refl eq_refl).
  intros a [].
Defined.

(** C1 as stated fails: with [x.json] in both lists of the app, the URL of
    [default.files] is found first and the scan of [anyOf] replaces it. *)
Lemma anyOf_replaces_default_match :
  declares Sample.app_both "A1" 1 = true
  /\ find_file (App.default_files Sample.app_both) "x.json"
     = Some (Sample.file "x.json" "http://s/default.json")
  /\ url (get_json_schema Sample.environ Sample.archive_map_both "x.json"
            (JStr "app1") "A1" 1)
     = Some "http://s/anyof.json"
  /\ url (get_json_schema Sample.environ Sample.archive_map_both "x.json"
            (JStr "app1") "A1" 1)
     <> Some "http://s/default.json".
Proof. repeat split; try reflexivity. discriminate. Qed.

Lemma find_file_first files_before file files_after file_name :
  (forall f, In f files_before -> filename f <> file_name) ->
  filename file = file_name ->
  find_file (files_before ++ file :: files_after) file_name = Some file.
Proof.
  intros Hbefore Hname. induction files_before as [|f files_before IH]; simpl.
  - now rewrite Hname, String.eqb_refl.
  - destruct (String.eqb (filename f) file_name) eqn:E.
    + apply String.eqb_eq in E. now destruct (Hbefore f (or_introl eq_refl)).
    + apply IH. intros; apply Hbefore; now right.
Qed.

Lemma find_file_absent files file_name :
  (forall f, In f files -> filename f <> file_name) ->
  find_file files file_name = None.
Proof.
  induction files as [|f files IH]; simpl; intros H; [reflexivity|].
  destruct (String.eqb (filename f) file_name) eqn:E.
  - apply String.eqb_eq in E. now destruct (H f (or_introl eq_refl)).
  - apply IH. intros; apply H; now right.
Qed.

(** C2, as the code has it. [get_json_schema] returns the [jsonSchema] of
    the first entry of [assessments] that has the assessment's identifier
    and revision and lists the file, and within this entry of the first file
    of this name: the entries before it either are of another assessment or
    do not list the file, and what comes after it is not read. The flag is
    still unset, whatever the apps and the top-level [anyOf] of the archive
    map declare. *)
Theorem first_assessment_entry_wins
    (before : list Assessment.t) (assessment : Assessment.t)
    (after : list Assessment.t) (files_before : list FileEntry)
    (file : FileEntry) (files_after : list FileEntry) (file_name : string)
    (assessment_id : string) (assessment_revision : Z) :
  (forall earlier,
      In earlier before ->
      ~ (Assessment.assessmentIdentifier earlier = assessment_id
         /\ Assessment.assessmentRevision earlier = assessment_revision)
      \/ forall f, In f (Assessment.files earlier) -> filename f <> file_name) ->
  Assessment.assessmentIdentifier assessment = assessment_id ->
  Assessment.assessmentRevision assessment = assessment_revision ->
  Assessment.files assessment = files_before ++ file :: files_after ->
  (forall f, In f files_before -> filename f <> file_name) ->
  filename file = file_name ->
  forall environ apps anyOf app_id,
    get_json_schema environ
      (ArchiveMap.Build_t (before ++ assessment :: after) apps anyOf)
      file_name app_id assessment_id assessment_revision
    = {| url := Some (jsonSchema file);
         allowed_app_specific_files := None;
         error := None;
         archive_map_version := dict_get environ "archive_map_version" |}.
Proof.
  intros Hbefore Hid Hrev Hfiles Hfirst Hname environ apps anyOf app_id.
  assert (Hscan :
            scan_assessments (before ++ assessment :: after) file_name
              assessment_id assessment_revision
            = Some (jsonSchema file)).
  { induction before as [|earlier before IH]; simpl.
    - rewrite Hid, Hrev, String.eqb_refl, Z.eqb_refl. simpl.
      now rewrite Hfiles, find_file_first.
    - assert (IH' := IH (fun e He => Hbefore e (or_intror He))).
      destruct (Hbefore earlier (or_introl eq_refl)) as [Hother | Hnone].
      + destruct (String.eqb _ _ && Z.eqb _ _) eqn:E; [|exact IH'].
        apply andb_true_iff in E as [E1 E2].
        apply String.eqb_eq in E1. apply Z.eqb_eq in E2. tauto.
      + rewrite find_file_absent by exact Hnone.
        now destruct (String.eqb _ _ && Z.eqb _ _). }
  unfold get_json_schema. simpl. now rewrite Hscan.
Qed.

Lemma first_assessment_entry_wins_witness :
  get_json_schema Sample.environ
    (ArchiveMap.Build_t
       ([] ++ DuplicateSample.first_entry :: [DuplicateSample.second_entry])
       [Sample.app1] [])
    "x.json" (JStr "app1") "A1" 1
  = {| url := Some "http://s/first.json";
       allowed_app_specific_files := None;
       error := None;
       archive_map_version := dict_get Sample.environ "archive_map_version" |}.
Proof.
  apply (@first_assessment_entry_wins [] DuplicateSample.first_entry
           [DuplicateSample.second_entry] []
           (Sample.file "x.json" "http://s/first.json") [] "x.json" "A1" 1%Z).
  - intros earlier [].
  - reflexivity.
  - reflexivity.
  - reflexivity.
  - intros f [].
  - reflexivity.
Defined.

(** C2 as stated fails: the second entry has the assessment's identifier and
    revision and lists the file, and its URL is not returned; the first such
    entry decides. *)
Lemma later_assessment_entry_is_not_returned :
  In DuplicateSample.second_entry
    (ArchiveMap.assessments DuplicateSample.archive_map)
  /\ Assessment.assessmentIdentifier DuplicateSample.second_entry = "A1"
  /\ Assessment.assessmentRevision DuplicateSample.second_entry = 1%Z
  /\ In (Sample.file "x.json" "http://s/second.json")
       (Assessment.files DuplicateSample.second_entry)
  /\ url (get_json_schema Sample.environ DuplicateSample.archive_map "x.json"
            (JStr "app1") "A1" 1)
     = Some "http://s/first.json"
  /\ url (get_json_schema Sample.environ DuplicateSample.archive_map "x.json"
            (JStr "app1") "A1" 1)
     <> Some "http://s/second.json".
Proof.
  repeat split; try reflexivity.
  - simpl. right. now left.
  - simpl. now left.
  - discriminate.
Qed.

(** The example of the specification: the assessment entry wins over the
    [anyOf] of the app. *)
Example resolve_example :
  url (get_json_schema Sample.environ Sample.archive_map "x.json"
         (JStr "app1") "A1" 1)
  = Some "http://s/a1.json".
Proof. reflexivity. Qed.

(** C9, as the code has it. An app entry of the given [appId] that does not
    declare the assessment is never read for its [default.files] or [anyOf]:
    any other lists give the same result. The flag is [false], also when the
    URL stays [None], provided the assessment tier did not return before the
    apps were scanned and no later entry of the same [appId] sets it anew. *)
Theorem undeclared_app_not_consulted
    (environ : pydict string) (assessments : list Assessment.t)
    (before : list App.t) (app : App.t) (after : list App.t)
    (anyOf : list AnyOfEntry) (file_name : string) (app_id : json)
    (assessment_id : string) (assessment_revision : Z) :
  str_eq_json (App.appId app) app_id = true ->
  declares app assessment_id assessment_revision = false ->
  (forall default_files' anyOf',
      get_json_schema environ
        (ArchiveMap.Build_t assessments
           (before
            ++ App.Build_t (App.appId app) (App.assessments app)
                 default_files' anyOf'
            :: after)
           anyOf)
        file_name app_id assessment_id assessment_revision
      = get_json_schema environ
          (ArchiveMap.Build_t assessments (before ++ app :: after) anyOf)
          file_name app_id assessment_id assessment_revision)
  /\ (scan_assessments assessments file_name assessment_id assessment_revision
      = None ->
      (forall a, In a after -> str_eq_json (App.appId a) app_id = false) ->
      allowed_app_specific_files
        (get_json_schema environ
           (ArchiveMap.Build_t assessments (before ++ app :: after) anyOf)
           file_name app_id assessment_id assessment_revision)
      = Some false).
Proof.
  intros Hid Hdecl. split.
  - intros default_files' anyOf'. unfold get_json_schema. simpl.
    destruct (scan_assessments _ _ _ _); [reflexivity|].
    rewrite !fold_left_app. simpl.
    rewrite (@scan_app_undeclared _ _ _ _ _ app) by assumption.
    rewrite scan_app_undeclared; [reflexivity|exact Hid|exact Hdecl].
  - intros Hscan Hafter. unfold get_json_schema. simpl.
    rewrite Hscan, fold_left_app. simpl.
    rewrite scan_app_undeclared, scan_apps_other by assumption.
    destruct (url (set_allowed _ false)); [reflexivity|].
    destruct (find_anyof _ _); reflexivity.
Qed.

Lemma undeclared_app_not_consulted_witness :
  allowed_app_specific_files
    (get_json_schema Sample.environ Sample.archive_map_undeclared "y.json"
       (JStr "app1") "A1" 1)
  = Some false
  /\ url (get_json_schema Sample.environ Sample.archive_map_undeclared "y.json"
            (JStr "app1") "A1" 1)
     = None.
Proof.
  split; [|reflexivity].
  refine (proj2
            (@undeclared_app_not_consulted Sample.environ
               (ArchiveMap.assessments Sample.archive_map_undeclared) []
               Sample.app_undeclared [] [] "y.json" (JStr "app1") "A1" 1%Z
               eq_refl eq_refl)
            eq_refl _).
  intros a [].
Defined.

(** C9 as stated fails: when the assessment tier resolves the file, the apps
    are not reached and the flag of an app that does not declare the
    assessment is [None], not [false]. *)
Lemma undeclared_app_flag_unset :
  str_eq_json (App.appId Sample.app_undeclared) (JStr "app1") = true
  /\ declares Sample.app_undeclared "A1" 1 = false
  /\ allowed_app_specific_files
       (get_json_schema Sample.environ Sample.archive_map_undeclared "x.json"
          (JStr "app1") "A1" 1)
     = None
  /\ allowed_app_specific_files
       (get_json_schema Sample.environ Sample.archive_map_undeclared "x.json"
          (JStr "app1") "A1" 1)
     <> Some false.
Proof. repeat split; try reflexivity. discriminate. Qed.

(** C10. [get_json_schema] has no state; the one thing it reads besides its
    arguments is the environment variable [archive_map_version], and the
    [SchemaResolution] (URL, flag and error) does not depend on it: two calls
    with the same archive map, file name, app, assessment and revision give
    the same resolution in any two environments. *)
Theorem get_json_schema_deterministic
    (environ1 environ2 : pydict string) (archive_map : ArchiveMap.t)
    (file_name : string) (app_id : json) (assessment_id : string)
    (assessment_revision : Z) :
  resolution
    (get_json_schema environ1 archive_map file_name app_id assessment_id
       assessment_revision)
  = resolution
      (get_json_schema environ2 archive_map file_name app_id assessment_id
         assessment_revision).
Proof.
  unfold get_json_schema.
  destruct (scan_assessments _ _ _ _); [reflexivity|].
  match goal with
  | |- resolution (match url ?a with _ => _ end)
       = resolution (match url ?b with _ => _ end) =>
      assert (H : resolution a = resolution b)
        by (now apply scan_apps_resolution);
      set (o1 := a) in *; set (o2 := b) in *
  end.
  assert (Hu : url o1 = url o2) by (unfold resolution in H; congruence).
  rewrite <- Hu. destruct (url o1); [exact H|].
  destruct (find_anyof _ _); [|exact H].
  unfold resolution, set_url in *. simpl. congruence.
Qed.

(** ** Batch aggregation *)

Lemma extend_extend (A : Type) (o : option (list A)) (l1 l2 : list A) :
  extend (extend o l1) l2 = extend o (l1 ++ l2).
Proof.
  destruct l1 as [|a l1]; [reflexivity|].
  destruct l2 as [|b l2]; simpl.
  - now rewrite app_nil_r.
  - now rewrite <- app_assoc.
Qed.

Section Aggregation.

Variables (app : string) (message_parameters : MessageParameters).

Lemma group_add_study_same messages study :
  group (add_study app message_parameters messages study) app study
  = Some match group messages app study with
         | Some records => records ++ [message_parameters]
         | None => [message_parameters]
         end.
Proof.
  unfold add_study, group, dict_mem.
  destruct (dict_get messages app) as [of_app|] eqn:E.
  - rewrite E. destruct (dict_get of_app study) eqn:F;
      now rewrite !dict_get_set_same.
  - rewrite dict_get_set_same. simpl. rewrite String.eqb_refl.
    rewrite dict_get_set_same. simpl. now rewrite String.eqb_refl.
Qed.

Lemma group_add_study_other messages study app' study' :
  (app', study') <> (app, study) ->
  group (add_study app message_parameters messages study) app' study'
  = group messages app' study'.
Proof.
  intros Hne. unfold add_study, group, dict_mem.
  destruct (String.eqb app app') eqn:Eapp.
  - apply String.eqb_eq in Eapp. subst app'.
    assert (Hstudy : study <> study') by congruence.
    destruct (dict_get messages app) as [of_app|] eqn:E.
    + rewrite E. destruct (dict_get of_app study) eqn:F;
        rewrite dict_get_set_same; now apply dict_get_set_other.
    + rewrite dict_get_set_same. simpl. rewrite String.eqb_refl.
      rewrite dict_get_set_same. simpl.
      destruct (String.eqb study study') eqn:E'; [|reflexivity].
      apply String.eqb_eq in E'. contradiction.
  - apply String.eqb_neq in Eapp.
    destruct (dict_get messages app) as [of_app|] eqn:E.
    + rewrite E. destruct (dict_get of_app study) eqn:F;
        now rewrite dict_get_set_other.
    + rewrite dict_get_set_same. simpl. rewrite String.eqb_refl.
      now rewrite !dict_get_set_other.
Qed.

Lemma group_add_study messages study app' study' :
  group (add_study app message_parameters messages study) app' study'
  = extend (group messages app' study')
      (if String.eqb app app' && String.eqb study study'
       then [message_parameters] else []).
Proof.
  destruct (String.eqb app app') eqn:Eapp;
    [destruct (String.eqb study study') eqn:Estudy|]; simpl.
  - apply String.eqb_eq in Eapp, Estudy. subst app' study'.
    rewrite group_add_study_same.
    now destruct (group messages app study).
  - apply group_add_study_other. apply String.eqb_neq in Estudy. congruence.
  - apply group_add_study_other. apply String.eqb_neq in Eapp. congruence.
Qed.

Lemma group_add_studies studies messages app' study' :
  group (fold_left (add_study app message_parameters) studies messages)
    app' study'
  = extend (group messages app' study')
      (if String.eqb app app'
       then map (fun _ => message_parameters)
              (filter (fun s => String.eqb s study') studies)
       else []).
Proof.
  revert messages.
  induction studies as [|s studies IH]; intros messages; simpl.
  - now destruct (String.eqb app app').
  - rewrite IH, group_add_study, extend_extend. f_equal.
    destruct (String.eqb app app'); [|reflexivity]. simpl.
    now destruct (String.eqb s study').
Qed.

End Aggregation.

Lemma group_add_record messages message app study :
  group (add_record messages message) app study
  = extend (group messages app study) (arrivals app study [message]).
Proof.
  unfold add_record, arrivals. simpl. rewrite app_nil_r.
  apply group_add_studies.
Qed.

Lemma group_add_records event messages app study :
  group (fold_left add_record event messages) app study
  = extend (group messages app study) (arrivals app study event).
Proof.
  revert messages. induction event as [|message event IH]; intros messages.
  - reflexivity.
  - simpl fold_left. rewrite IH, group_add_record, extend_extend.
    f_equal. unfold arrivals. simpl. now rewrite app_nil_r.
Qed.

(** ** The header of an archive *)

(** Inversion of a successful sequence of binds. *)
Ltac bind_inv H :=
  repeat match type of H with
         | bind ?m _ = Ok _ =>
             let E := fresh "E" in
             destruct m eqn:E; simpl in H; [|discriminate H]
         end.

Lemma split_on_nonempty sep l : split_on sep l <> [].
Proof.
  destruct l as [|c l]; simpl; [discriminate|].
  destruct (Ascii.eqb c sep); [discriminate|].
  destruct (split_on sep l); discriminate.
Qed.

Lemma split_on_two sep l :
  In sep l -> exists a b rest, split_on sep l = a :: b :: rest.
Proof.
  induction l as [|c l IH]; simpl; [tauto|].
  intros Hin. destruct (Ascii.eqb c sep) eqn:E.
  - destruct (split_on sep l) as [|b rest] eqn:S.
    + now apply split_on_nonempty in S.
    + eauto.
  - destruct Hin as [-> | Hin]; [now rewrite Ascii.eqb_refl in E|].
    destruct (IH Hin) as (a & b & rest & ->). eauto.
Qed.

Lemma re_search_field_shape key l group :
  re_search_field key l = Some group -> exists v, group = key ++ v.
Proof.
  induction l as [|c l IH]; simpl.
  - destruct (starts_with key []) as [rest|]; [|discriminate].
    destruct (take_while not_comma rest); [discriminate|].
    intros [= <-]. eauto.
  - destruct (starts_with key (c :: l)) as [rest|]; [|exact IH].
    destruct (take_while not_comma rest); [exact IH|].
    intros [= <-]. eauto.
Qed.

(** The text of a match has a second piece whenever the key has the sign
    [=]: the subscript [[1]] cannot fail. *)
Lemma field_value_total key l :
  In "="%char key ->
  exists v,
    field_value (re_search_field key l) = Ok v
    /\ (re_search_field key l = None -> v = None).
Proof.
  intros Hkey. unfold field_value.
  destruct (re_search_field key l) as [group|] eqn:E.
  - destruct (re_search_field_shape _ _ E) as [v ->].
    destruct (@split_on_two "="%char (key ++ v)) as (a & b & rest & ->).
    + apply in_or_app. now left.
    + simpl. eexists. split; [reflexivity|discriminate].
  - eexists. split; reflexivity.
Qed.

(** A text of more digits than the interpreter converts is no integer. *)
Lemma py_int_digit_limit s :
  (int_max_str_digits < Z.of_nat (length (filter is_digit (strip (chars s)))))%Z ->
  py_int s = Raise ValueError.
Proof.
  intros H. apply Z.ltb_lt in H. unfold py_int. rewrite H.
  now destruct (match strip (chars s) with [] => _ | _ :: _ => _ end).
Qed.

Lemma new_validation_result_errors s3_obj validation_result :
  new_validation_result s3_obj = Ok validation_result ->
  ValidationResult.errors validation_result = [].
Proof.
  unfold new_validation_result. intros H. bind_inv H.
  now injection H as <-.
Qed.

(** ** The entries of an archive *)

Lemma for_each_app (A S : Type) (body : S -> A -> result S) (xs ys : list A)
    (s : S) :
  for_each body (xs ++ ys) s = bind (for_each body xs s) (for_each body ys).
Proof.
  revert s. induction xs as [|x xs IH]; intros s; simpl; [reflexivity|].
  destruct (body s x); simpl; auto.
Qed.

Section Entries.

Variables (w : World) (environ : pydict string) (archive_map : ArchiveMap.t).
Variables (app_id : json) (assessment_id : string) (assessment_revision : Z).

Local Abbreviation validate :=
  (validate_entry w environ archive_map app_id assessment_id
     assessment_revision).

Local Abbreviation resolved entry :=
  (url (get_json_schema environ archive_map (basename (json_path entry)) app_id
          assessment_id assessment_revision)).

(** An entry changes nothing but the errors. *)
Lemma validate_entry_header validation_result entry validation_result' :
  validate validation_result entry = Ok validation_result' ->
  ValidationResult.appId validation_result'
  = ValidationResult.appId validation_result.
Proof.
  unfold validate_entry.
  destruct (url _); [|now intros [= <-]].
  destruct (requests_get_json w _); simpl; [|discriminate].
  destruct (load_payload entry); simpl; [|discriminate].
  destruct (String.eqb _ _); [now intros [= <-]|].
  destruct (validate_against_schema _ _ _ _); simpl; [|discriminate].
  destruct (_ <? _)%nat; now intros [= <-].
Qed.

Lemma validate_entries_header contents validation_result validation_result' :
  for_each validate contents validation_result = Ok validation_result' ->
  ValidationResult.appId validation_result'
  = ValidationResult.appId validation_result.
Proof.
  revert validation_result.
  induction contents as [|entry contents IH]; simpl; intros vr.
  - now intros [= <-].
  - destruct (validate vr entry) as [vr1|] eqn:E; simpl; [|discriminate].
    intros H. rewrite (IH _ H). now apply validate_entry_header with entry.
Qed.

(** The entry called [taskData.json] leaves the result as it was, when its
    processing returns at all. *)
Lemma validate_entry_task_data validation_result entry validation_result' :
  json_path entry = "taskData.json" ->
  validate validation_result entry = Ok validation_result' ->
  validation_result' = validation_result.
Proof.
  unfold validate_entry. intros ->.
  destruct (url _); [|now intros [= <-]].
  destruct (requests_get_json w _); simpl; [|discriminate].
  destruct (load_payload entry); simpl; [|discriminate].
  now intros [= <-].
Qed.

(** A failure to fetch the schema of an entry is the failure of the entry. *)
Lemma validate_entry_fetch_failure validation_result entry u e :
  resolved entry = Some u ->
  requests_get_json w u = Raise e ->
  validate validation_result entry = Raise e.
Proof.
  unfold validate_entry. intros -> ->. reflexivity.
Qed.

(** Entries without a schema, and task data whose schema can be fetched and
    whose payload can be decoded, are passed over. *)
Lemma validate_entries_skipped contents validation_result :
  (forall entry,
      In entry contents ->
      resolved entry = None
      \/ (json_path entry = "taskData.json"
          /\ forall u,
              resolved entry = Some u ->
              (exists schema, requests_get_json w u = Ok schema)
              /\ payload entry <> None)) ->
  for_each validate contents validation_result = Ok validation_result.
Proof.
  induction contents as [|entry contents IH]; simpl; intros H; [reflexivity|].
  assert (Hentry : validate validation_result entry = Ok validation_result).
  { unfold validate_entry.
    destruct (H entry (or_introl eq_refl)) as [Hnone | [Hpath Hsome]].
    - now rewrite Hnone.
    - destruct (url _) as [u|]; [|reflexivity].
      destruct (Hsome u eq_refl) as [[schema ->] Hpayload]. simpl.
      unfold load_payload. destruct (payload entry); [|contradiction].
      simpl. now rewrite Hpath. }
  rewrite Hentry. simpl. apply IH. auto.
Qed.

End Entries.

(** C3, as the code has it. When the [clientinfo] header is no JSON text and
    its [appVersion] field is an integer, [parse_client_info_metadata] does
    not raise: [osName] is the value of its field, [None] when the field is
    missing, and [appName] is the fixed string [mobile-toolbox]. With the
    other header fields in place the
    validation result is built with that string as its [appId] (no null
    value), and [validate_data] returns whatever the loop over the entries
    of the archive returns. *)
Theorem raw_client_info_parses
    (s3_obj : S3Object)
    (assessment_id revision client_info_str record_id app_version : string)
    (assessment_revision version : Z) :
  dict_getitem (Metadata s3_obj) "assessmentid" = Ok assessment_id ->
  dict_getitem (Metadata s3_obj) "assessmentrevision" = Ok revision ->
  py_int revision = Ok assessment_revision ->
  dict_getitem (Metadata s3_obj) "clientinfo" = Ok client_info_str ->
  dict_getitem (Metadata s3_obj) "recordid" = Ok record_id ->
  clientinfo_loads s3_obj = None ->
  field_value (re_search_field (chars "appVersion=") (chars client_info_str))
  = Ok (Some app_version) ->
  py_int app_version = Ok version ->
  let validation_result :=
    {| ValidationResult.assessmendId := assessment_id;
       ValidationResult.assessmentRevision := assessment_revision;
       ValidationResult.appId := JStr "mobile-toolbox";
       ValidationResult.recordId := record_id;
       ValidationResult.errors := [] |} in
  (exists os_name,
      field_value (re_search_field (chars "osName=") (chars client_info_str))
      = Ok os_name
      /\ parse_client_info_metadata None client_info_str
         = Ok (JObj [("appVersion", JInt version);
                     ("osName", json_of_opt_str os_name);
                     ("appName", JStr "mobile-toolbox")])
      /\ (re_search_field (chars "osName=") (chars client_info_str) = None ->
          os_name = None))
  /\ new_validation_result s3_obj = Ok validation_result
  /\ forall w environ message_parameters archive_map sts_tokens token contents
            validation_result',
      dict_getitem sts_tokens (raw_folder_id message_parameters) = Ok token ->
      s3_get_object w token (source_bucket message_parameters)
        (source_key message_parameters) = Ok s3_obj ->
      Body s3_obj = Some contents ->
      for_each
        (validate_entry w environ archive_map (JStr "mobile-toolbox")
           assessment_id assessment_revision)
        contents validation_result = Ok validation_result' ->
      validate_data w environ message_parameters archive_map sts_tokens
      = Ok validation_result'
      /\ ValidationResult.appId validation_result' = JStr "mobile-toolbox".
Proof.
  intros Hid Hrev Hint Hci Hrec Hloads Hversion Hversion_int vr0.
  destruct (@field_value_total (chars "osName=") (chars client_info_str))
    as (os_name & Hos & Hnone); [simpl; tauto|].
  assert (Hparse :
            parse_client_info_metadata None client_info_str
            = Ok (JObj [("appVersion", JInt version);
                        ("osName", json_of_opt_str os_name);
                        ("appName", JStr "mobile-toolbox")])).
  { unfold parse_client_info_metadata.
    rewrite Hversion, Hos. simpl. now rewrite Hversion_int. }
  assert (Hnew : new_validation_result s3_obj = Ok vr0).
  { unfold new_validation_result.
    rewrite Hid, Hrev. simpl. rewrite Hint, Hci. simpl.
    rewrite Hloads, Hparse. simpl. now rewrite Hrec. }
  split; [exists os_name; auto|]. split; [exact Hnew|].
  intros w environ message_parameters archive_map sts_tokens token contents
    vr Htoken Hget Hbody Hloop.
  split.
  - unfold validate_data. rewrite Htoken. simpl. rewrite Hget. simpl.
    rewrite Hnew. simpl. unfold open_zip. rewrite Hbody. exact Hloop.
  - now rewrite (validate_entries_header _ _ _ _ _ _ _ _ Hloop).
Qed.

Lemma raw_client_info_parses_witness :
  validate_data (Sample.world Sample.archive_map Sample.online [])
    Sample.environ (parameters_of (Sample.message "kv" []))
    Sample.archive_map Sample.tokens
  = Ok {| ValidationResult.assessmendId := "A1";
          ValidationResult.assessmentRevision := 1;
          ValidationResult.appId := JStr "mobile-toolbox";
          ValidationResult.recordId := "record-1";
          ValidationResult.errors := [] |}.
Proof.
  refine (proj1
            (proj2 (proj2
               (@raw_client_info_parses
                  (Sample.archive_raw_header "appVersion=12,osName=Android")
                  "A1" "1" "appVersion=12,osName=Android" "record-1" "12"
                  1%Z 12%Z eq_refl eq_refl eq_refl eq_refl eq_refl eq_refl
                  eq_refl eq_refl))
               (Sample.world Sample.archive_map Sample.online [])
               Sample.environ (parameters_of (Sample.message "kv" []))
               Sample.archive_map Sample.tokens
               [("aws_access_key_id", "key")] [] _ eq_refl eq_refl eq_refl
               eq_refl)).
Defined.

(** C3 as stated fails: a [clientinfo] header that is no JSON text and
    lacks the fields [osName] and [appName] is parsed without an exception,
    [osName] becomes [None], and the record gets its validation result; but
    the [appId] of the result is the string [mobile-toolbox] that the
    docstring of the parser announces, not a null value. *)
Lemma raw_header_app_id_is_not_null :
  parse_client_info_metadata None "appVersion=12"
  = Ok (JObj [("appVersion", JInt 12);
              ("osName", JNull);
              ("appName", JStr "mobile-toolbox")])
  /\ s3_get_object RawHeaderSample.world [("aws_access_key_id", "key")]
       "bucket" "k1"
     = Ok (Sample.archive_raw_header "appVersion=12")
  /\ validate_data RawHeaderSample.world Sample.environ
       (parameters_of Sample.rec1) Sample.archive_map Sample.tokens
     = Ok {| ValidationResult.assessmendId := "A1";
             ValidationResult.assessmentRevision := 1;
             ValidationResult.appId := JStr "mobile-toolbox";
             ValidationResult.recordId := "record-1";
             ValidationResult.errors := [] |}
  /\ JStr "mobile-toolbox" <> JNull.
Proof. repeat split. discriminate. Qed.

(** Beside this, a header that is neither JSON nor has an [appVersion]
    field sets the version to [None] and then converts it to an integer:
    the parser raises a [TypeError], and so does the validation of the
    record, while the missing [osName] keeps its [None]. *)
Lemma garbage_client_info_raises :
  parse_client_info_metadata None "garbage" = Raise TypeError
  /\ s3_get_object (Sample.world Sample.archive_map Sample.online [])
       [("aws_access_key_id", "key")] "bucket" "garbage"
     = Ok (Sample.archive_raw_header "garbage")
  /\ validate_data (Sample.world Sample.archive_map Sample.online [])
       Sample.environ (parameters_of (Sample.message "garbage" []))
       Sample.archive_map Sample.tokens
     = Raise TypeError.
Proof. repeat split. Qed.

(** C8, as the code has it. A record whose every entry has no schema or is
    [taskData.json] is valid with no errors, provided that a [taskData.json]
    whose schema resolves has a schema document that can be fetched and a
    payload that can be decoded: both happen before the entry is skipped.
    The entry [taskData.json] never changes the errors. *)
Theorem unresolved_or_exempt_is_valid
    (w : World) (environ : pydict string)
    (message_parameters : MessageParameters) (archive_map : ArchiveMap.t)
    (sts_tokens : pydict StsToken) (token : StsToken) (s3_obj : S3Object)
    (validation_result : ValidationResult.t) (contents : list ArchiveEntry) :
  dict_getitem sts_tokens (raw_folder_id message_parameters) = Ok token ->
  s3_get_object w token (source_bucket message_parameters)
    (source_key message_parameters) = Ok s3_obj ->
  new_validation_result s3_obj = Ok validation_result ->
  Body s3_obj = Some contents ->
  (forall entry,
      In entry contents ->
      url (get_json_schema environ archive_map (basename (json_path entry))
             (ValidationResult.appId validation_result)
             (ValidationResult.assessmendId validation_result)
             (ValidationResult.assessmentRevision validation_result))
      = None
      \/ (json_path entry = "taskData.json"
          /\ forall u,
              url (get_json_schema environ archive_map
                     (basename (json_path entry))
                     (ValidationResult.appId validation_result)
                     (ValidationResult.assessmendId validation_result)
                     (ValidationResult.assessmentRevision validation_result))
              = Some u ->
              (exists schema, requests_get_json w u = Ok schema)
              /\ payload entry <> None)) ->
  validate_data w environ message_parameters archive_map sts_tokens
  = Ok validation_result
  /\ ValidationResult.errors validation_result = []
  /\ forall app_id assessment_id assessment_revision before entry after,
      json_path entry = "taskData.json" ->
      validate_entry w environ archive_map app_id assessment_id
        assessment_revision before entry = Ok after ->
      after = before.
Proof.
  intros Htoken Hget Hnew Hbody Hentries. split; [|split].
  - unfold validate_data. rewrite Htoken. simpl. rewrite Hget. simpl.
    rewrite Hnew. simpl. unfold open_zip. rewrite Hbody.
    now apply validate_entries_skipped.
  - now apply new_validation_result_errors with s3_obj.
  - intros app_id assessment_id assessment_revision before entry after.
    apply validate_entry_task_data.
Qed.

Lemma unresolved_or_exempt_is_valid_witness :
  validate_data (Sample.world Sample.archive_map_task Sample.online ["bad"])
    Sample.environ (parameters_of (Sample.message "task" []))
    Sample.archive_map_task Sample.tokens
  = Ok {| ValidationResult.assessmendId := "A1";
          ValidationResult.assessmentRevision := 1;
          ValidationResult.appId := JStr "app1";
          ValidationResult.recordId := "record-1";
          ValidationResult.errors := [] |}.
Proof.
  refine (proj1
            (@unresolved_or_exempt_is_valid
               (Sample.world Sample.archive_map_task Sample.online ["bad"])
               Sample.environ (parameters_of (Sample.message "task" []))
               Sample.archive_map_task Sample.tokens
               [("aws_access_key_id", "key")]
               (Sample.archive [Sample.entry "taskData.json"]) _
               [Sample.entry "taskData.json"]
               eq_refl eq_refl eq_refl eq_refl _)).
  intros entry [<- | []]. right. split; [reflexivity|].
  intros u _. split; [exists (JObj []); reflexivity | discriminate].
Defined.

(** C8 as stated fails: an archive whose only entry is [taskData.json] does
    not end validation as valid when a schema resolves for this entry and the
    payload is no JSON text, or the schema document cannot be fetched:
    [validate_data] raises before it skips the entry. *)
Lemma exempt_entry_raises :
  url (get_json_schema Sample.environ Sample.archive_map_task
         (basename "taskData.json") (JStr "app1") "A1" 1)
  = Some "http://s/task.json"
  /\ s3_get_object (Sample.world Sample.archive_map_task Sample.online [])
       [("aws_access_key_id", "key")] "bucket" "task-text"
     = Ok (Sample.archive [{| json_path := "taskData.json"; payload := None |}])
  /\ validate_data (Sample.world Sample.archive_map_task Sample.online [])
       Sample.environ (parameters_of (Sample.message "task-text" []))
       Sample.archive_map_task Sample.tokens
     = Raise JSONDecodeError
  /\ s3_get_object (Sample.world Sample.archive_map_task Sample.offline [])
       [("aws_access_key_id", "key")] "bucket" "task"
     = Ok (Sample.archive [Sample.entry "taskData.json"])
  /\ validate_data (Sample.world Sample.archive_map_task Sample.offline [])
       Sample.environ (parameters_of (Sample.message "task" []))
       Sample.archive_map_task Sample.tokens
     = Raise (RequestException "ConnectionError").
Proof. repeat split. Qed.

(** ** The loop over the records *)

Lemma for_each_M_app (A S : Type) (body : S -> A -> M S) (xs ys : list A)
    (s : S) (trace : list Effect) :
  for_each_M body (xs ++ ys) s trace
  = match for_each_M body xs s trace with
    | (trace', Ok s') => for_each_M body ys s' trace'
    | (trace', Raise e) => (trace', Raise e)
    end.
Proof.
  revert s trace. induction xs as [|x xs IH]; intros s trace; simpl.
  - reflexivity.
  - unfold bindM. destruct (body s x trace) as [trace' [s'|e]]; auto.
Qed.

Section Records.

Variables (w : World) (environ : pydict string) (archive_map : ArchiveMap.t).

(** A record performs no effect: [mark_as_invalid] does nothing, and the
    workflows are started after the loop. *)
Lemma process_record_trace st message trace trace' r :
  process_record w environ archive_map st message trace = (trace', r) ->
  trace' = trace.
Proof.
  unfold process_record, bindM, lift, mark_as_invalid, ret.
  destruct (update_sts_tokens _ _ _); [|now intros [= <- _]].
  destruct (validate_data _ _ _ _ _); [|now intros [= <- _]].
  destruct (_ <? _)%nat; now intros [= <- _].
Qed.

Lemma process_record_messages st message trace trace' st' :
  process_record w environ archive_map st message trace = (trace', Ok st') ->
  messages st' = add_record (messages st) message.
Proof.
  unfold process_record, bindM, lift, mark_as_invalid, ret.
  destruct (update_sts_tokens _ _ _); [|discriminate].
  destruct (validate_data _ _ _ _ _); [|discriminate].
  destruct (_ <? _)%nat; now intros [= _ <-].
Qed.

(** A record whose validation raises ends the loop with that exception. *)
Lemma process_record_raises st message trace sts_tokens' e :
  update_sts_tokens w (Message.rawFolderId message) (sts_tokens st)
  = Ok sts_tokens' ->
  validate_data w environ (parameters_of message) archive_map sts_tokens'
  = Raise e ->
  process_record w environ archive_map st message trace = (trace, Raise e).
Proof.
  unfold process_record, bindM, lift. simpl. now intros -> ->.
Qed.

Lemma records_trace event st trace trace' r :
  for_each_M (process_record w environ archive_map) event st trace
  = (trace', r) ->
  trace' = trace.
Proof.
  revert st trace. induction event as [|message event IH]; simpl;
    intros st trace.
  - now intros [= <- _].
  - unfold bindM.
    destruct (process_record _ _ _ _ _ _) as [trace1 [st1|e]] eqn:E;
      apply process_record_trace in E; subst trace1.
    + apply IH.
    + now intros [= <- _].
Qed.

Lemma records_messages event st trace trace' st' :
  for_each_M (process_record w environ archive_map) event st trace
  = (trace', Ok st') ->
  messages st' = fold_left add_record event (messages st).
Proof.
  revert st trace. induction event as [|message event IH]; simpl;
    intros st trace.
  - now intros [= _ <-].
  - unfold bindM.
    destruct (process_record _ _ _ _ _ _) as [trace1 [st1|e]] eqn:E;
      [|discriminate].
    intros H. apply IH in H. rewrite H.
    now rewrite (process_record_messages _ _ _ E).
Qed.

End Records.

(** C4, as the code has it. When the schema document of a file of a record
    cannot be fetched, [validate_data] raises for this record; nothing in
    [lambda_handler] catches the exception, so the invocation ends with it
    whatever records follow, and no workflow has been started, not even for
    the records that came before. *)
Theorem fetch_failure_aborts_invocation
    (w : World) (environ : pydict string) (before : list Message.t)
    (message : Message.t) (after : list Message.t) (auth_token : string)
    (archive_map : ArchiveMap.t) (st : LoopState)
    (sts_tokens' : pydict StsToken) (token : StsToken) (s3_obj : S3Object)
    (validation_result : ValidationResult.t)
    (contents_before : list ArchiveEntry) (entry : ArchiveEntry)
    (contents_after : list ArchiveEntry)
    (validation_result' : ValidationResult.t) (u : string) (e : exn) :
  ssm_get_parameter w (dict_get environ "ssm_parameter_name") = Ok auth_token ->
  syn_login w auth_token = Ok tt ->
  get_archive_map w (dict_get environ "archive_map_version") = Ok archive_map ->
  for_each_M (process_record w environ archive_map) before
    {| messages := []; sts_tokens := [] |} []
  = ([], Ok st) ->
  update_sts_tokens w (Message.rawFolderId message) (sts_tokens st)
  = Ok sts_tokens' ->
  dict_getitem sts_tokens' (Message.rawFolderId message) = Ok token ->
  s3_get_object w token (Message.s3Bucket message) (Message.s3Key message)
  = Ok s3_obj ->
  new_validation_result s3_obj = Ok validation_result ->
  Body s3_obj = Some (contents_before ++ entry :: contents_after) ->
  for_each
    (validate_entry w environ archive_map
       (ValidationResult.appId validation_result)
       (ValidationResult.assessmendId validation_result)
       (ValidationResult.assessmentRevision validation_result))
    contents_before validation_result
  = Ok validation_result' ->
  url (get_json_schema environ archive_map (basename (json_path entry))
         (ValidationResult.appId validation_result)
         (ValidationResult.assessmendId validation_result)
         (ValidationResult.assessmentRevision validation_result))
  = Some u ->
  requests_get_json w u = Raise e ->
  validate_data w environ (parameters_of message) archive_map sts_tokens'
  = Raise e
  /\ run w environ (before ++ message :: after) = ([], Raise e).
Proof.
  intros Hssm Hlogin Hmap Hbefore Htokens Htoken Hget Hnew Hbody Hdone Hurl
    Hfetch.
  assert (Hraise :
            validate_data w environ (parameters_of message) archive_map
              sts_tokens'
            = Raise e).
  { unfold validate_data. simpl. rewrite Htoken. simpl. rewrite Hget. simpl.
    rewrite Hnew. simpl. unfold open_zip. rewrite Hbody. simpl.
    rewrite for_each_app, Hdone. simpl.
    now rewrite (validate_entry_fetch_failure _ _ _ _ _ _ _ _ Hurl Hfetch). }
  split; [exact Hraise|].
  unfold run, lambda_handler, bindM, lift.
  rewrite Hssm, Hlogin, Hmap, for_each_M_app, Hbefore. simpl. unfold bindM.
  now rewrite (process_record_raises _ _ _ _ _ _ Htokens Hraise).
Qed.

Lemma fetch_failure_aborts_invocation_witness :
  validate_data (Sample.world Sample.archive_map Sample.offline [])
    Sample.environ (parameters_of Sample.rec1) Sample.archive_map Sample.tokens
  = Raise (RequestException "ConnectionError")
  /\ run (Sample.world Sample.archive_map Sample.offline []) Sample.environ
       ([Sample.rec2] ++ Sample.rec1 :: [Sample.rec2])
     = ([], Raise (RequestException "ConnectionError")).
Proof.
  apply (@fetch_failure_aborts_invocation
           (Sample.world Sample.archive_map Sample.offline []) Sample.environ
           [Sample.rec2] Sample.rec1 [Sample.rec2] "auth-token"
           Sample.archive_map
           {| messages := aggregate [Sample.rec2];
              sts_tokens := Sample.tokens |}
           Sample.tokens [("aws_access_key_id", "key")]
           (Sample.archive [Sample.entry "x.json"])
           {| ValidationResult.assessmendId := "A1";
              ValidationResult.assessmentRevision := 1;
              ValidationResult.appId := JStr "app1";
              ValidationResult.recordId := "record-1";
              ValidationResult.errors := [] |}
           [] (Sample.entry "x.json") []
           {| ValidationResult.assessmendId := "A1";
              ValidationResult.assessmentRevision := 1;
              ValidationResult.appId := JStr "app1";
              ValidationResult.recordId := "record-1";
              ValidationResult.errors := [] |}
           "http://s/a1.json" (RequestException "ConnectionError"));
    reflexivity.
Defined.

(** C4 as stated fails: the schema of the file of the first record cannot be
    fetched, and the second record, which alone is processed and dispatched,
    is not processed: the invocation raises and starts no workflow. *)
Lemma fetch_failure_not_isolated :
  run (Sample.world Sample.archive_map Sample.offline []) Sample.environ
    [Sample.rec2]
  = ([GlueStartWorkflowRun "ns-app1-s1-S3ToJsonWorkflow";
      GluePutWorkflowRunProperties "ns-app1-s1-S3ToJsonWorkflow" "run-1"
        [parameters_of Sample.rec2];
      GlueStartWorkflowRun "ns-app1-s2-S3ToJsonWorkflow";
      GluePutWorkflowRunProperties "ns-app1-s2-S3ToJsonWorkflow" "run-1"
        [parameters_of Sample.rec2]],
     Ok tt)
  /\ validate_data (Sample.world Sample.archive_map Sample.offline [])
       Sample.environ (parameters_of Sample.rec1) Sample.archive_map
       Sample.tokens
     = Raise (RequestException "ConnectionError")
  /\ run (Sample.world Sample.archive_map Sample.offline []) Sample.environ
       [Sample.rec1; Sample.rec2]
     = ([], Raise (RequestException "ConnectionError")).
Proof. repeat split. Qed.

(** C5 at a record with a validation error: [mark_as_invalid] is called and
    does nothing, so the only effects of the invocation are the two calls
    that dispatch the batch of the record; nothing is sent to the queue of
    invalid records. The record is in its batch like a valid one. *)
Lemma invalid_record_is_only_dispatched :
  (exists validation_result,
      validate_data (Sample.world Sample.archive_map Sample.online ["bad"])
        Sample.environ (parameters_of Sample.rec1) Sample.archive_map
        Sample.tokens
      = Ok validation_result
      /\ length (ValidationResult.errors validation_result) = 1%nat
      /\ forall sqs_queue trace,
          mark_as_invalid validation_result sqs_queue trace = (trace, Ok tt))
  /\ run (Sample.world Sample.archive_map Sample.online ["bad"])
       Sample.environ [Sample.rec1]
     = ([GlueStartWorkflowRun "ns-app1-s1-S3ToJsonWorkflow";
         GluePutWorkflowRunProperties "ns-app1-s1-S3ToJsonWorkflow" "run-1"
           [parameters_of Sample.rec1]],
        Ok tt).
Proof.
  split; [|reflexivity].
  eexists. split; [reflexivity|]. split; reflexivity.
Qed.

Lemma filter_key_absent (study : string) (keys : list string) :
  ~ In study keys -> filter (fun s => String.eqb s study) keys = [].
Proof.
  induction keys as [|k keys IH]; simpl; intros Hnot; [reflexivity|].
  destruct (String.eqb k study) eqn:E.
  - apply String.eqb_eq in E. tauto.
  - apply IH. tauto.
Qed.

(** Among the keys of a dictionary a study is found once or not at all. *)
Lemma filter_key_unique (study : string) (keys : list string) :
  NoDup keys ->
  filter (fun s => String.eqb s study) keys
  = if existsb (fun s => String.eqb s study) keys then [study] else [].
Proof.
  induction 1 as [|k keys Hnot Hnodup IH]; simpl; [reflexivity|].
  destruct (String.eqb k study) eqn:E; simpl; [|exact IH].
  apply String.eqb_eq in E. subst k.
  now rewrite filter_key_absent.
Qed.

Lemma arrivals_unique_keys app study event :
  (forall message,
      In message event -> NoDup (dict_keys (Message.studyRecords message))) ->
  arrivals app study event
  = map parameters_of (filter (belongs app study) event).
Proof.
  induction event as [|message event IH]; intros Hkeys; [reflexivity|].
  unfold arrivals in *. simpl. rewrite IH by (intros; apply Hkeys; now right).
  unfold belongs at 2.
  destruct (String.eqb (Message.appId message) app); simpl; [|reflexivity].
  rewrite filter_key_unique by (apply Hkeys; now left).
  now destruct (existsb _ _).
Qed.

(** C6. The batch of every [(appId, studyId)] is the sequence of the records
    of the event that belong to it, in the order of the event: with the keys
    of each [studyRecords] distinct, as the keys of a dictionary are, it is
    the event filtered by membership. The batches that the loop of
    [lambda_handler] builds are this function of the event alone, whatever
    the services answer: a replay of the same sequence gives the same
    groups. *)
Theorem aggregation_preserves_arrival_order (event : list Message.t) :
  (forall app study,
      group (aggregate event) app study
      = match arrivals app study event with
        | [] => None
        | records => Some records
        end)
  /\ (forall app study,
         (forall message,
             In message event ->
             NoDup (dict_keys (Message.studyRecords message))) ->
         arrivals app study event
         = map parameters_of (filter (belongs app study) event))
  /\ (forall w environ archive_map trace trace' st,
         for_each_M (process_record w environ archive_map) event
           {| messages := []; sts_tokens := [] |} trace
         = (trace', Ok st) ->
         messages st = aggregate event).
Proof.
  split; [|split].
  - intros app study. unfold aggregate. rewrite group_add_records. simpl.
    now destruct (arrivals app study event).
  - intros app study. apply arrivals_unique_keys.
  - intros w environ archive_map trace trace' st H.
    now apply records_messages in H.
Qed.

Lemma aggregation_preserves_arrival_order_witness :
  arrivals "app1" "s1" [Sample.rec1; Sample.rec2]
  = map parameters_of
      (filter (belongs "app1" "s1") [Sample.rec1; Sample.rec2])
  /\ messages
       {| messages :=
            [("app1",
              [("s1", [parameters_of Sample.rec1; parameters_of Sample.rec2]);
               ("s2", [parameters_of Sample.rec2])])];
          sts_tokens := Sample.tokens |}
     = aggregate [Sample.rec1; Sample.rec2].
Proof.
  split.
  - apply (proj1 (proj2 (aggregation_preserves_arrival_order
                           [Sample.rec1; Sample.rec2]))).
    intros message [<- | [<- | []]]; simpl.
    + constructor; [simpl; tauto | constructor].
    + constructor; [simpl; intros [H | []]; discriminate H|].
      constructor; [simpl; tauto | constructor].
  - apply (proj2 (proj2 (aggregation_preserves_arrival_order
                           [Sample.rec1; Sample.rec2]))
             (Sample.world Sample.archive_map Sample.online [])
             Sample.environ Sample.archive_map [] []).
    reflexivity.
Defined.

(** C7. A record joins the batch of each study of its study set: the batch of
    a new [(appId, studyId)] pair is the one-element sequence of the record,
    an existing batch gets the record at its end. Two records of [app1] with
    the studies [s1] and [s1], [s2] give the groups
    [{app1: {s1: [rec1, rec2], s2: [rec2]}}]. *)
Theorem add_record_groups_by_study :
  (forall messages app study message_parameters,
      group (add_study app message_parameters messages study) app study
      = Some match group messages app study with
             | Some records => records ++ [message_parameters]
             | None => [message_parameters]
             end)
  /\ (forall messages message study,
         In study (dict_keys (Message.studyRecords message)) ->
         exists records,
           group (add_record messages message) (Message.appId message) study
           = Some records
           /\ In (parameters_of message) records)
  /\ aggregate [Sample.rec1; Sample.rec2]
     = [("app1",
         [("s1", [parameters_of Sample.rec1; parameters_of Sample.rec2]);
          ("s2", [parameters_of Sample.rec2])])].
Proof.
  split; [|split].
  - intros. apply group_add_study_same.
  - intros messages message study Hin.
    rewrite group_add_record. unfold arrivals. simpl.
    rewrite String.eqb_refl, app_nil_r.
    assert (Hmem :
              In (parameters_of message)
                (map (fun _ => parameters_of message)
                   (filter (fun s => String.eqb s study)
                      (dict_keys (Message.studyRecords message))))).
    { apply in_map_iff. exists study. split; [reflexivity|].
      apply filter_In. split; [assumption|apply String.eqb_refl]. }
    destruct (map _ _) as [|p ps]; [contradiction|].
    simpl. eexists. split; [reflexivity|].
    apply in_or_app. now right.
  - reflexivity.
Qed.

Lemma add_record_groups_by_study_witness :
  exists records,
    group (add_record [] Sample.rec2) (Message.appId Sample.rec2) "s2"
    = Some records
    /\ In (parameters_of Sample.rec2) records.
Proof.
  apply (proj1 (proj2 add_record_groups_by_study) [] Sample.rec2 "s2").
  simpl. auto.
Defined.

(** * Further properties of the resolver *)

Section ResolverFacts.

Variables (environ : pydict string) (file_name : string) (app_id : json).
Variables (assessment_id : string) (assessment_revision : Z).

Local Abbreviation scan :=
  (scan_app file_name app_id assessment_id assessment_revision).

Local Abbreviation fresh :=
  {| url := None;
     allowed_app_specific_files := None;
     error := None;
     archive_map_version := dict_get environ "archive_map_version" |}.

Lemma find_anyof_some entries u :
  find_anyof entries file_name = Some u ->
  exists entry,
    In entry entries
    /\ anyof_filename entry = file_name
    /\ anyof_jsonSchema entry = Some u.
Proof.
  induction entries as [|entry entries IH]; simpl; [discriminate|].
  destruct (String.eqb (anyof_filename entry) file_name) eqn:E.
  - destruct (anyof_jsonSchema entry) as [v|] eqn:S.
    + intros [= <-]. apply String.eqb_eq in E. eauto.
    + intros H. destruct (IH H) as (e & Hin & rest). eauto.
  - intros H. destruct (IH H) as (e & Hin & rest). eauto.
Qed.

(** One app gives the object a URL of its own files, or leaves the URL. *)
Lemma scan_app_url o app :
  url (scan o app) = url o
  \/ (str_eq_json (App.appId app) app_id = true
      /\ declares app assessment_id assessment_revision = true
      /\ exists file,
          (In file (App.default_files app) \/ In file (App.anyOf app))
          /\ filename file = file_name
          /\ url (scan o app) = Some (jsonSchema file)).
Proof.
  unfold scan_app.
  destruct (str_eq_json _ _) eqn:Hid; [|now left].
  destruct (declares _ _ _) eqn:Hdecl; [|now left].
  destruct (find_file (App.anyOf app) file_name) as [file|] eqn:Hany.
  - right. apply find_file_some in Hany as [Hin Hname].
    repeat split; auto. exists file. auto.
  - destruct (find_file (App.default_files app) file_name) as [file|] eqn:Hdef.
    + right. apply find_file_some in Hdef as [Hin Hname].
      repeat split; auto. exists file. auto.
    + now left.
Qed.

Lemma scan_apps_url apps o :
  url (fold_left scan apps o) = url o
  \/ exists app file,
      In app apps
      /\ str_eq_json (App.appId app) app_id = true
      /\ declares app assessment_id assessment_revision = true
      /\ (In file (App.default_files app) \/ In file (App.anyOf app))
      /\ filename file = file_name
      /\ url (fold_left scan apps o) = Some (jsonSchema file).
Proof.
  revert o. induction apps as [|app apps IH]; intros o; simpl; [now left|].
  destruct (IH (scan o app)) as [Hsame | (a & file & Hin & rest)].
  - rewrite Hsame.
    destruct (scan_app_url o app) as [Hkeep | (Hid & Hdecl & file & Hf & Hn & Hu)].
    + now left.
    + right. exists app, file. auto 10.
  - right. exists a, file. tauto.
Qed.

Lemma scan_app_allowed o app :
  allowed_app_specific_files (scan o app)
  = if str_eq_json (App.appId app) app_id
    then Some (declares app assessment_id assessment_revision)
    else allowed_app_specific_files o.
Proof.
  unfold scan_app. destruct (str_eq_json _ _); [|reflexivity].
  destruct (declares _ _ _); [|reflexivity].
  destruct (find_file (App.default_files app) file_name),
           (find_file (App.anyOf app) file_name); reflexivity.
Qed.

Lemma scan_apps_allowed apps o found :
  allowed_app_specific_files o
  = option_map (fun a => declares a assessment_id assessment_revision) found ->
  allowed_app_specific_files (fold_left scan apps o)
  = option_map (fun a => declares a assessment_id assessment_revision)
      (last_matching app_id apps found).
Proof.
  revert o found. induction apps as [|app apps IH]; intros o found H; simpl.
  - exact H.
  - apply IH. rewrite scan_app_allowed.
    now destruct (str_eq_json _ _).
Qed.

Lemma scan_app_fields o app :
  error (scan o app) = error o
  /\ archive_map_version (scan o app) = archive_map_version o.
Proof.
  unfold scan_app. destruct (str_eq_json _ _); [|tauto].
  destruct (declares _ _ _); [|tauto].
  destruct (find_file (App.default_files app) file_name),
           (find_file (App.anyOf app) file_name); tauto.
Qed.

Lemma scan_apps_fields apps o :
  error (fold_left scan apps o) = error o
  /\ archive_map_version (fold_left scan apps o) = archive_map_version o.
Proof.
  revert o. induction apps as [|app apps IH]; intros o; simpl; [tauto|].
  destruct (IH (scan o app)) as [-> ->]. apply scan_app_fields.
Qed.

(** X1. A URL that [get_json_schema] returns is a [jsonSchema] that the
    archive map declares for the file name: in an entry of [assessments]
    with the very identifier and revision, in an app with the very [appId]
    that declares the assessment, or in the top-level [anyOf]. A file that
    none of them lists has no URL. *)
Theorem resolved_url_is_declared (archive_map : ArchiveMap.t) (u : string) :
  url (get_json_schema environ archive_map file_name app_id assessment_id
         assessment_revision)
  = Some u ->
  declared_for archive_map file_name app_id assessment_id assessment_revision u.
Proof.
  unfold get_json_schema, declared_for.
  destruct (scan_assessments _ _ _ _) as [v|] eqn:Hscan.
  - simpl. intros [= <-]. left.
    destruct (scan_assessments_some _ _ _ _ Hscan)
      as (a & file & H1 & H2 & H3 & H4 & H5 & H6).
    exists a, file. auto 10.
  - destruct (scan_apps_url (ArchiveMap.apps archive_map) fresh)
      as [Hsame | (app & file & Hin & Hid & Hdecl & Hf & Hn & Hu)].
    + rewrite Hsame. simpl.
      destruct (find_anyof _ _) as [v|] eqn:Hany.
      * simpl. intros [= <-]. right. right. now apply find_anyof_some.
      * rewrite Hsame. discriminate.
    + rewrite Hu. rewrite Hu. intros [= <-]. right. left.
      exists app, file. auto 10.
Qed.

(** X2. When the assessments or the apps give a URL, the top-level [anyOf]
    is not read: the whole result is the same with any other list. *)
Theorem top_level_anyOf_is_a_fallback
    (assessments : list Assessment.t) (apps : list App.t)
    (anyOf : list AnyOfEntry) (u : string) :
  url (get_json_schema environ (ArchiveMap.Build_t assessments apps [])
         file_name app_id assessment_id assessment_revision)
  = Some u ->
  get_json_schema environ (ArchiveMap.Build_t assessments apps anyOf)
    file_name app_id assessment_id assessment_revision
  = get_json_schema environ (ArchiveMap.Build_t assessments apps [])
      file_name app_id assessment_id assessment_revision.
Proof.
  unfold get_json_schema. simpl.
  destruct (scan_assessments _ _ _ _); [reflexivity|].
  destruct (url (fold_left scan apps fresh)) eqn:Hu; [reflexivity|].
  rewrite Hu. discriminate.
Qed.

(** X3. When neither the assessments nor the apps give a URL, the URL is
    that of the first top-level [anyOf] entry of this file name that has a
    [jsonSchema] key: entries of the file name without the key are passed
    over. The flag stays as the apps left it. *)
Theorem top_level_anyOf_skips_entries_without_schema
    (assessments : list Assessment.t) (apps : list App.t)
    (skipped : list AnyOfEntry) (entry : AnyOfEntry) (rest : list AnyOfEntry)
    (u : string) :
  url (get_json_schema environ (ArchiveMap.Build_t assessments apps [])
         file_name app_id assessment_id assessment_revision)
  = None ->
  (forall e,
      In e skipped ->
      anyof_filename e <> file_name \/ anyof_jsonSchema e = None) ->
  anyof_filename entry = file_name ->
  anyof_jsonSchema entry = Some u ->
  get_json_schema environ
    (ArchiveMap.Build_t assessments apps (skipped ++ entry :: rest))
    file_name app_id assessment_id assessment_revision
  = set_url
      (get_json_schema environ (ArchiveMap.Build_t assessments apps [])
         file_name app_id assessment_id assessment_revision)
      u.
Proof.
  intros Hnone Hskipped Hname Hschema.
  assert (Hfind : find_anyof (skipped ++ entry :: rest) file_name = Some u).
  { induction skipped as [|e skipped IH]; simpl.
    - now rewrite Hname, String.eqb_refl, Hschema.
    - destruct (Hskipped e (or_introl eq_refl)) as [Hne | Hno].
      + apply String.eqb_neq in Hne. rewrite Hne. apply IH.
        intros; apply Hskipped; now right.
      + rewrite Hno.
        destruct (String.eqb _ _); apply IH; intros; apply Hskipped; now right. }
  revert Hnone. unfold get_json_schema. simpl.
  destruct (scan_assessments _ _ _ _); [discriminate|].
  destruct (url (fold_left scan apps fresh)) eqn:Hu.
  - rewrite Hu. discriminate.
  - intros _. now rewrite Hfind.
Qed.

(** X4. Apps of another [appId] play no part: the result is that of the
    archive map without apps. This is so for every app when the [appId] of
    the record is not a string. *)
Theorem other_apps_play_no_part
    (assessments : list Assessment.t) (apps : list App.t)
    (anyOf : list AnyOfEntry) :
  ((forall app, In app apps -> str_eq_json (App.appId app) app_id = false)
   \/ (forall s, app_id <> JStr s)) ->
  get_json_schema environ (ArchiveMap.Build_t assessments apps anyOf)
    file_name app_id assessment_id assessment_revision
  = get_json_schema environ (ArchiveMap.Build_t assessments [] anyOf)
      file_name app_id assessment_id assessment_revision.
Proof.
  intros H.
  assert (Hother :
            forall app, In app apps ->
                        str_eq_json (App.appId app) app_id = false).
  { destruct H as [H | H]; [exact H|].
    intros app _. destruct app_id; try reflexivity. now destruct (H s). }
  unfold get_json_schema. simpl.
  now rewrite scan_apps_other by exact Hother.
Qed.

(** X5. The flag [allowed_app_specific_files] is [None] when an assessment
    entry gives the URL; otherwise it tells whether the last app entry with
    the [appId] declares the assessment, and is [None] without such an
    entry. *)
Theorem flag_of_last_matching_app (archive_map : ArchiveMap.t) :
  allowed_app_specific_files
    (get_json_schema environ archive_map file_name app_id assessment_id
       assessment_revision)
  = match scan_assessments (ArchiveMap.assessments archive_map) file_name
            assessment_id assessment_revision with
    | Some _ => None
    | None =>
        option_map (fun a => declares a assessment_id assessment_revision)
          (last_matching app_id (ArchiveMap.apps archive_map) None)
    end.
Proof.
  unfold get_json_schema.
  destruct (scan_assessments _ _ _ _); [reflexivity|].
  rewrite <- (scan_apps_allowed (ArchiveMap.apps archive_map) fresh None)
    by reflexivity.
  destruct (url _); [reflexivity|].
  now destruct (find_anyof _ _).
Qed.

(** X6. [get_json_schema] never sets the [error] of the object, and the
    version that it reports is the environment variable
    [archive_map_version]. *)
Theorem resolver_leaves_error_unset (archive_map : ArchiveMap.t) :
  error
    (get_json_schema environ archive_map file_name app_id assessment_id
       assessment_revision)
  = None
  /\ archive_map_version
       (get_json_schema environ archive_map file_name app_id assessment_id
          assessment_revision)
     = dict_get environ "archive_map_version".
Proof.
  unfold get_json_schema.
  destruct (scan_assessments _ _ _ _); [now split|].
  destruct (scan_apps_fields (ArchiveMap.apps archive_map) fresh) as [He Hv].
  destruct (url _); [now split|].
  destruct (find_anyof _ _); simpl; now split.
Qed.

End ResolverFacts.

Lemma resolved_url_is_declared_witness :
  declared_for Sample.archive_map_both "x.json" (JStr "app1") "A1" 1
    "http://s/anyof.json".
Proof.
  apply (@resolved_url_is_declared Sample.environ "x.json" (JStr "app1") "A1"
           1%Z Sample.archive_map_both "http://s/anyof.json").
  reflexivity.
Defined.

Lemma top_level_anyOf_is_a_fallback_witness :
  get_json_schema Sample.environ
    (ArchiveMap.Build_t [] [Sample.app_both]
       [{| anyof_filename := "y.json";
           anyof_jsonSchema := Some "http://s/global.json" |}])
    "y.json" (JStr "app1") "A1" 1
  = get_json_schema Sample.environ
      (ArchiveMap.Build_t [] [Sample.app_both] [])
      "y.json" (JStr "app1") "A1" 1.
Proof.
  apply (@top_level_anyOf_is_a_fallback Sample.environ "y.json" (JStr "app1")
           "A1" 1%Z [] [Sample.app_both] _ "http://s/y.json").
  reflexivity.
Defined.

Lemma top_level_anyOf_skips_entries_without_schema_witness :
  get_json_schema Sample.environ
    (ArchiveMap.Build_t [] [Sample.app_undeclared]
       ([{| anyof_filename := "y.json"; anyof_jsonSchema := None |}]
        ++ {| anyof_filename := "y.json";
              anyof_jsonSchema := Some "http://s/global.json" |}
        :: []))
    "y.json" (JStr "app1") "A1" 1
  = set_url
      (get_json_schema Sample.environ
         (ArchiveMap.Build_t [] [Sample.app_undeclared] [])
         "y.json" (JStr "app1") "A1" 1)
      "http://s/global.json".
Proof.
  apply (@top_level_anyOf_skips_entries_without_schema Sample.environ "y.json"
           (JStr "app1") "A1" 1%Z [] [Sample.app_undeclared]);
    try reflexivity.
  intros e [<- | []]. now right.
Defined.

Lemma other_apps_play_no_part_witness :
  get_json_schema Sample.environ
    (ArchiveMap.Build_t [] [Sample.app_both] []) "x.json" JNull "A1" 1
  = get_json_schema Sample.environ
      (ArchiveMap.Build_t [] [] []) "x.json" JNull "A1" 1.
Proof.
  apply (@other_apps_play_no_part Sample.environ "x.json" JNull "A1" 1%Z
           [] [Sample.app_both] []).
  right. discriminate.
Defined.

(** * Further properties of the header parser *)

Lemma starts_with_app (key rest : list ascii) :
  starts_with key (key ++ rest) = Some rest.
Proof.
  induction key as [|c key IH]; simpl.
  - now destruct rest.
  - now rewrite Ascii.eqb_refl.
Qed.

Lemma take_while_value (v tail : list ascii) :
  (forall c, In c v -> c <> ","%char) ->
  match tail with [] => True | c :: _ => c = ","%char end ->
  take_while not_comma (v ++ tail) = v.
Proof.
  intros Hv Htail. induction v as [|c v IH]; simpl.
  - destruct tail as [|c tail]; [reflexivity|]. subst c. reflexivity.
  - unfold not_comma at 1.
    destruct (Ascii.eqb c ","%char) eqn:E.
    + apply Ascii.eqb_eq in E. now destruct (Hv c (or_introl eq_refl)).
    + simpl. f_equal. apply IH. intros; apply Hv; now right.
Qed.

Lemma split_on_absent (sep : ascii) (v : list ascii) :
  ~ In sep v -> split_on sep v = [v].
Proof.
  induction v as [|c v IH]; simpl; intros Hnot; [reflexivity|].
  destruct (Ascii.eqb c sep) eqn:E.
  - apply Ascii.eqb_eq in E. tauto.
  - rewrite IH by tauto. reflexivity.
Qed.

Lemma split_on_key_value (sep : ascii) (name v : list ascii) :
  ~ In sep name -> ~ In sep v ->
  split_on sep (name ++ sep :: v) = [name; v].
Proof.
  intros Hname Hv. induction name as [|c name IH]; simpl.
  - now rewrite Ascii.eqb_refl, split_on_absent.
  - destruct (Ascii.eqb c sep) eqn:E.
    + apply Ascii.eqb_eq in E. simpl in Hname. tauto.
    + rewrite IH by (simpl in Hname; tauto). reflexivity.
Qed.

Lemma re_search_field_here (key l rest : list ascii) :
  starts_with key l = Some rest ->
  take_while not_comma rest <> [] ->
  re_search_field key l = Some (key ++ take_while not_comma rest).
Proof.
  intros Hstart Hvalue.
  destruct l as [|c l]; simpl; rewrite Hstart;
    destruct (take_while not_comma rest); congruence.
Qed.

(** The value of a field that opens the header: what follows the key up to
    the next comma, when it has no sign [=]. *)
Lemma field_value_at_start (name v tail : list ascii) :
  ~ In "="%char name ->
  v <> [] ->
  (forall c, In c v -> c <> ","%char /\ c <> "="%char) ->
  match tail with [] => True | c :: _ => c = ","%char end ->
  field_value (re_search_field (name ++ ["="%char])
                 ((name ++ ["="%char]) ++ v ++ tail))
  = Ok (Some (str v)).
Proof.
  intros Hname Hne Hv Htail.
  assert (Htake : take_while not_comma (v ++ tail) = v).
  { apply take_while_value; [|exact Htail]. intros c Hc. now apply Hv. }
  rewrite (@re_search_field_here _ _ (v ++ tail)).
  - rewrite Htake. unfold field_value.
    rewrite <- app_assoc. simpl.
    rewrite split_on_key_value; [reflexivity|exact Hname|].
    intros Hin. now destruct (Hv _ Hin).
  - apply starts_with_app.
  - rewrite Htake. exact Hne.
Qed.

(** X7. A [clientinfo] header that is no JSON text and has no [appVersion]
    field makes [parse_client_info_metadata] raise a [TypeError], whatever
    else the header holds. *)
Theorem missing_app_version_raises (client_info_str : string) :
  re_search_field (chars "appVersion=") (chars client_info_str) = None ->
  parse_client_info_metadata None client_info_str = Raise TypeError.
Proof.
  intros Hnone.
  destruct (@field_value_total (chars "osName=") (chars client_info_str))
    as (os_name & Hos & _); [simpl; tauto|].
  unfold parse_client_info_metadata. now rewrite Hnone, Hos.
Qed.

Lemma missing_app_version_raises_witness :
  parse_client_info_metadata None "osName=Android,appName=x" = Raise TypeError.
Proof.
  apply (@missing_app_version_raises "osName=Android,appName=x").
  reflexivity.
Defined.

(** X8. A header in the key=value form that opens with [appVersion=v],
    where [v] is not empty, has no comma and no sign [=] and ends at a comma
    or at the end of the header, is parsed to the integer that [v] denotes;
    [appName] is [mobile-toolbox]. A [v] that denotes no integer makes the
    parser raise a [ValueError]. *)
Theorem key_value_header_round_trip (v tail : list ascii) :
  v <> [] ->
  (forall c, In c v -> c <> ","%char /\ c <> "="%char) ->
  match tail with [] => True | c :: _ => c = ","%char end ->
  (forall n,
      py_int (str v) = Ok n ->
      exists os_name,
        parse_client_info_metadata None (str (chars "appVersion=" ++ v ++ tail))
        = Ok (JObj [("appVersion", JInt n);
                    ("osName", json_of_opt_str os_name);
                    ("appName", JStr "mobile-toolbox")]))
  /\ (py_int (str v) = Raise ValueError ->
      parse_client_info_metadata None (str (chars "appVersion=" ++ v ++ tail))
      = Raise ValueError).
Proof.
  intros Hne Hv Htail.
  assert (Hversion :
            field_value
              (re_search_field (chars "appVersion=")
                 (chars (str (chars "appVersion=" ++ v ++ tail))))
            = Ok (Some (str v))).
  { unfold chars at 2, str at 1.
    rewrite list_ascii_of_string_of_list_ascii.
    apply (@field_value_at_start (chars "appVersion") v tail); auto.
    simpl. intros H. repeat destruct H as [H | H]; try discriminate H. exact H. }
  destruct (@field_value_total (chars "osName=")
              (chars (str (chars "appVersion=" ++ v ++ tail))))
    as (os_name & Hos & _); [simpl; tauto|].
  split.
  - intros n Hint. exists os_name. unfold parse_client_info_metadata.
    rewrite Hversion, Hos. simpl. now rewrite Hint.
  - intros Hint. unfold parse_client_info_metadata.
    rewrite Hversion, Hos. simpl. now rewrite Hint.
Qed.

Lemma key_value_header_round_trip_witness :
  (exists os_name,
      parse_client_info_metadata None
        (str (chars "appVersion=" ++ chars "12" ++ chars ",osName=Android"))
      = Ok (JObj [("appVersion", JInt 12);
                  ("osName", json_of_opt_str os_name);
                  ("appName", JStr "mobile-toolbox")]))
  /\ parse_client_info_metadata None
       (str (chars "appVersion=" ++ chars "1.2.3" ++ chars ",osName=iOS"))
     = Raise ValueError.
Proof.
  split.
  - refine (proj1 (@key_value_header_round_trip (chars "12")
                     (chars ",osName=Android") _ _ _) 12%Z eq_refl).
    + discriminate.
    + simpl. intros c [<- | [<- | []]]; split; discriminate.
    + reflexivity.
  - refine (proj2 (@key_value_header_round_trip (chars "1.2.3")
                     (chars ",osName=iOS") _ _ _) eq_refl).
    + discriminate.
    + simpl. intros c H.
      repeat destruct H as [<- | H]; try (split; discriminate). destruct H.
    + reflexivity.
Defined.

(** * Further properties of the validator *)

Lemma dict_get_set (V : Type) (d : pydict V) (k k' : string) (v : V) :
  dict_get (dict_set d k v) k'
  = if String.eqb k k' then Some v else dict_get d k'.
Proof.
  destruct (String.eqb k k') eqn:E.
  - apply String.eqb_eq in E. subst k'. apply dict_get_set_same.
  - apply String.eqb_neq in E. now apply dict_get_set_other.
Qed.

Section ValidatorFacts.

Variables (w : World) (environ : pydict string).
Variables (message_parameters : MessageParameters).
Variables (archive_map : ArchiveMap.t) (sts_tokens : pydict StsToken).
Variables (token : StsToken) (s3_obj : S3Object).

Hypothesis token_found :
  dict_getitem sts_tokens (raw_folder_id message_parameters) = Ok token.

Hypothesis object_found :
  s3_get_object w token (source_bucket message_parameters)
    (source_key message_parameters)
  = Ok s3_obj.

Lemma validate_data_from_object :
  validate_data w environ message_parameters archive_map sts_tokens
  = (validation_result <- new_validation_result s3_obj ;;
     contents <- open_zip s3_obj ;;
     for_each
       (validate_entry w environ archive_map
          (ValidationResult.appId validation_result)
          (ValidationResult.assessmendId validation_result)
          (ValidationResult.assessmentRevision validation_result))
       contents validation_result).
Proof.
  unfold validate_data. rewrite token_found. simpl.
  now rewrite object_found.
Qed.

(** X9. The header of the object is read in the order [assessmentid],
    [assessmentrevision], [clientinfo], [recordid]: a missing
    [assessmentid] or [assessmentrevision] is a [KeyError] of that key, a
    revision that denotes no integer is a [ValueError], and a body that is
    no zip archive is a [BadZipFile], raised after the header was read. *)
Theorem header_errors :
  (dict_get (Metadata s3_obj) "assessmentid" = None ->
   validate_data w environ message_parameters archive_map sts_tokens
   = Raise (KeyError "assessmentid"))
  /\ (dict_get (Metadata s3_obj) "assessmentid" <> None ->
      dict_get (Metadata s3_obj) "assessmentrevision" = None ->
      validate_data w environ message_parameters archive_map sts_tokens
      = Raise (KeyError "assessmentrevision"))
  /\ (forall revision,
         dict_get (Metadata s3_obj) "assessmentid" <> None ->
         dict_get (Metadata s3_obj) "assessmentrevision" = Some revision ->
         py_int revision = Raise ValueError ->
         validate_data w environ message_parameters archive_map sts_tokens
         = Raise ValueError)
  /\ (forall validation_result,
         new_validation_result s3_obj = Ok validation_result ->
         Body s3_obj = None ->
         validate_data w environ message_parameters archive_map sts_tokens
         = Raise BadZipFile).
Proof.
  rewrite validate_data_from_object.
  repeat split.
  - unfold new_validation_result, dict_getitem. now intros ->.
  - unfold new_validation_result, dict_getitem. intros Hid ->.
    now destruct (dict_get (Metadata s3_obj) "assessmentid").
  - unfold new_validation_result, dict_getitem. intros revision Hid -> Hint.
    destruct (dict_get (Metadata s3_obj) "assessmentid"); [|contradiction].
    simpl. now rewrite Hint.
  - intros validation_result Hnew Hbody.
    rewrite Hnew. simpl. unfold open_zip. now rewrite Hbody.
Qed.

(** X10. A [clientinfo] header that is a JSON text is not checked: the
    [appId] of the result is whatever value its [appName] has; a JSON object
    without [appName] is a [KeyError], and a JSON value that is no object a
    [TypeError]. *)
Theorem json_client_info_app_name
    (assessment_id revision client_info_str record_id : string)
    (assessment_revision : Z) (client_info : json) :
  dict_getitem (Metadata s3_obj) "assessmentid" = Ok assessment_id ->
  dict_getitem (Metadata s3_obj) "assessmentrevision" = Ok revision ->
  py_int revision = Ok assessment_revision ->
  dict_getitem (Metadata s3_obj) "clientinfo" = Ok client_info_str ->
  dict_getitem (Metadata s3_obj) "recordid" = Ok record_id ->
  clientinfo_loads s3_obj = Some client_info ->
  (forall app_name,
      json_getitem client_info "appName" = Ok app_name ->
      new_validation_result s3_obj
      = Ok {| ValidationResult.assessmendId := assessment_id;
              ValidationResult.assessmentRevision := assessment_revision;
              ValidationResult.appId := app_name;
              ValidationResult.recordId := record_id;
              ValidationResult.errors := [] |})
  /\ (forall o,
         client_info = JObj o ->
         dict_get o "appName" = None ->
         validate_data w environ message_parameters archive_map sts_tokens
         = Raise (KeyError "appName"))
  /\ ((forall o, client_info <> JObj o) ->
      validate_data w environ message_parameters archive_map sts_tokens
      = Raise TypeError).
Proof.
  intros Hid Hrev Hint Hci Hrec Hloads.
  assert (Hnew :
            new_validation_result s3_obj
            = (app_id <- json_getitem client_info "appName" ;;
               Ok {| ValidationResult.assessmendId := assessment_id;
                     ValidationResult.assessmentRevision := assessment_revision;
                     ValidationResult.appId := app_id;
                     ValidationResult.recordId := record_id;
                     ValidationResult.errors := [] |})).
  { unfold new_validation_result.
    rewrite Hid, Hrev. simpl. rewrite Hint, Hci. simpl.
    rewrite Hloads. simpl.
    destruct (json_getitem client_info "appName"); simpl; [|reflexivity].
    now rewrite Hrec. }
  rewrite validate_data_from_object, Hnew.
  repeat split.
  - now intros app_name ->.
  - intros o -> Hnone. simpl. unfold dict_getitem. now rewrite Hnone.
  - intros Hno. destruct client_info; try reflexivity. now destruct (Hno o).
Qed.

End ValidatorFacts.

Section ValidationResults.

Variables (w : World) (environ : pydict string) (archive_map : ArchiveMap.t).
Variables (app_id : json) (assessment_id : string) (assessment_revision : Z).

Local Abbreviation validate :=
  (validate_entry w environ archive_map app_id assessment_id
     assessment_revision).

Local Abbreviation error_of :=
  (error_in environ archive_map app_id assessment_id assessment_revision).

Lemma validate_entry_result before entry after :
  validate before entry = Ok after ->
  same_header after before
  /\ forall key obj,
      dict_get (ValidationResult.errors after) key = Some obj ->
      dict_get (ValidationResult.errors before) key = Some obj
      \/ error_of [entry] key obj.
Proof.
  unfold validate_entry, same_header.
  destruct (url _) as [u|] eqn:Hurl; [|intros [= <-]; auto 10].
  destruct (requests_get_json w u); simpl; [|discriminate].
  destruct (load_payload entry); simpl; [|discriminate].
  destruct (String.eqb (json_path entry) "taskData.json") eqn:Hpath;
    [intros [= <-]; auto 10|].
  destruct (validate_against_schema _ _ _ _) as [all_errors|]; simpl;
    [|discriminate].
  destruct (0 <? length all_errors)%nat eqn:Hlen; intros [= <-]; [|auto 10].
  split; [simpl; auto|].
  intros key obj. simpl. rewrite dict_get_set.
  destruct (String.eqb _ key) eqn:Hkey; [|now left].
  intros [= <-]. right. apply String.eqb_eq in Hkey. subst key.
  exists entry, all_errors. simpl. repeat split; auto.
  - now apply String.eqb_neq.
  - destruct all_errors; [discriminate|discriminate].
  - now rewrite Hurl.
Qed.

Lemma validate_entries_result contents before after :
  for_each validate contents before = Ok after ->
  same_header after before
  /\ forall key obj,
      dict_get (ValidationResult.errors after) key = Some obj ->
      dict_get (ValidationResult.errors before) key = Some obj
      \/ error_of contents key obj.
Proof.
  revert before. induction contents as [|entry contents IH]; simpl;
    intros before.
  - intros [= <-]. unfold same_header. auto 10.
  - destruct (validate before entry) as [middle|] eqn:E; simpl; [|discriminate].
    intros H. destruct (IH _ H) as [Hh Herr].
    destruct (validate_entry_result _ _ E) as [Hh' Herr'].
    split.
    + unfold same_header in *. intuition congruence.
    + intros key obj Hget.
      destruct (Herr key obj Hget) as [Hmid | (e & errs & Hin & rest)].
      * destruct (Herr' key obj Hmid) as [Hold | (e & errs & Hin & rest)];
          [now left|].
        right. exists e, errs. destruct Hin as [<- | []]. simpl. tauto.
      * right. exists e, errs. simpl. tauto.
Qed.

End ValidationResults.

(** X11. [validate_data] returns the result that the header gave, with
    errors added: the key of each error is the base name of an entry of the
    archive other than [taskData.json], and its value is the object of the
    resolver for this name, with a URL and with a list of violations that is
    not empty. *)
Theorem errors_come_from_entries
    (w : World) (environ : pydict string)
    (message_parameters : MessageParameters) (archive_map : ArchiveMap.t)
    (sts_tokens : pydict StsToken) (token : StsToken) (s3_obj : S3Object)
    (header : ValidationResult.t) (contents : list ArchiveEntry)
    (validation_result : ValidationResult.t) :
  dict_getitem sts_tokens (raw_folder_id message_parameters) = Ok token ->
  s3_get_object w token (source_bucket message_parameters)
    (source_key message_parameters)
  = Ok s3_obj ->
  new_validation_result s3_obj = Ok header ->
  Body s3_obj = Some contents ->
  validate_data w environ message_parameters archive_map sts_tokens
  = Ok validation_result ->
  same_header validation_result header
  /\ forall key obj,
      dict_get (ValidationResult.errors validation_result) key = Some obj ->
      error_in environ archive_map (ValidationResult.appId header)
        (ValidationResult.assessmendId header)
        (ValidationResult.assessmentRevision header) contents key obj.
Proof.
  intros Htoken Hget Hnew Hbody.
  rewrite (@validate_data_from_object w environ message_parameters archive_map
             sts_tokens token s3_obj Htoken Hget), Hnew. simpl.
  unfold open_zip. rewrite Hbody. simpl. intros Hloop.
  destruct (validate_entries_result _ _ _ _ _ _ _ _ Hloop) as [Hh Herr].
  split; [exact Hh|].
  intros key obj Hkey. destruct (Herr key obj Hkey) as [Hold | Hnew']; auto.
  rewrite (new_validation_result_errors _ Hnew) in Hold. discriminate.
Qed.

Lemma header_errors_witness :
  validate_data (HeaderSample.world_of HeaderSample.no_assessment_id)
    Sample.environ (parameters_of Sample.rec1) Sample.archive_map
    Sample.tokens
  = Raise (KeyError "assessmentid")
  /\ validate_data (HeaderSample.world_of HeaderSample.revision_in_words)
       Sample.environ (parameters_of Sample.rec1) Sample.archive_map
       Sample.tokens
     = Raise ValueError.
Proof.
  split.
  - apply (proj1
             (@header_errors
                (HeaderSample.world_of HeaderSample.no_assessment_id)
                Sample.environ (parameters_of Sample.rec1) Sample.archive_map
                Sample.tokens [("aws_access_key_id", "key")]
                HeaderSample.no_assessment_id eq_refl eq_refl)).
    reflexivity.
  - apply (proj1 (proj2 (proj2
             (@header_errors
                (HeaderSample.world_of HeaderSample.revision_in_words)
                Sample.environ (parameters_of Sample.rec1) Sample.archive_map
                Sample.tokens [("aws_access_key_id", "key")]
                HeaderSample.revision_in_words eq_refl eq_refl))) "one");
      [discriminate | reflexivity | reflexivity].
Defined.

Lemma json_client_info_app_name_witness :
  validate_data (HeaderSample.world_of HeaderSample.empty_client_info)
    Sample.environ (parameters_of Sample.rec1) Sample.archive_map
    Sample.tokens
  = Raise (KeyError "appName").
Proof.
  apply (proj1 (proj2
           (@json_client_info_app_name
              (HeaderSample.world_of HeaderSample.empty_client_info)
              Sample.environ (parameters_of Sample.rec1) Sample.archive_map
              Sample.tokens [("aws_access_key_id", "key")]
              HeaderSample.empty_client_info eq_refl eq_refl
              "A1" "1" "{}" "record-1" 1%Z (JObj [])
              eq_refl eq_refl eq_refl eq_refl eq_refl eq_refl)) []);
    reflexivity.
Defined.

Lemma errors_come_from_entries_witness :
  error_in Sample.environ Sample.archive_map (JStr "app1") "A1" 1
    [Sample.entry "x.json"] "x.json"
    {| url := Some "http://s/a1.json";
       allowed_app_specific_files := None;
       error := Some ["bad"];
       archive_map_version := Some "v1" |}.
Proof.
  refine (proj2
            (@errors_come_from_entries
               (Sample.world Sample.archive_map Sample.online ["bad"])
               Sample.environ (parameters_of Sample.rec1) Sample.archive_map
               Sample.tokens [("aws_access_key_id", "key")]
               (Sample.archive [Sample.entry "x.json"])
               {| ValidationResult.assessmendId := "A1";
                  ValidationResult.assessmentRevision := 1;
                  ValidationResult.appId := JStr "app1";
                  ValidationResult.recordId := "record-1";
                  ValidationResult.errors := [] |}
               [Sample.entry "x.json"] _ eq_refl eq_refl eq_refl eq_refl
               eq_refl)
            "x.json" _ eq_refl).
Defined.

(** * Further properties of the handler *)

Lemma dict_get_in (V : Type) (d : pydict V) (k : string) (v : V) :
  dict_get d k = Some v -> In (k, v) d.
Proof.
  induction d as [|[k' v'] d IH]; simpl; [discriminate|].
  destruct (String.eqb k' k) eqn:E.
  - intros [= <-]. apply String.eqb_eq in E. subst. now left.
  - intros H. right. auto.
Qed.

Lemma dict_get_none_keys (V : Type) (d : pydict V) (k : string) :
  dict_get d k = None -> ~ In k (dict_keys d).
Proof.
  induction d as [|[k' v'] d IH]; simpl; [tauto|].
  destruct (String.eqb k' k) eqn:E; [discriminate|].
  apply String.eqb_neq in E. intros H [Hk | Hin]; [contradiction|].
  now apply IH.
Qed.

Lemma dict_keys_set (V : Type) (d : pydict V) (k : string) (v : V) :
  dict_keys (dict_set d k v)
  = if dict_mem d k then dict_keys d else dict_keys d ++ [k].
Proof.
  unfold dict_mem. induction d as [|[k' v'] d IH]; simpl; [reflexivity|].
  destruct (String.eqb k' k) eqn:E; simpl; [reflexivity|].
  rewrite IH. now destruct (dict_get d k).
Qed.

Lemma dict_set_nodup (V : Type) (d : pydict V) (k : string) (v : V) :
  NoDup (dict_keys d) -> NoDup (dict_keys (dict_set d k v)).
Proof.
  intros Hd. rewrite dict_keys_set. unfold dict_mem.
  destruct (dict_get d k) eqn:E; [exact Hd|].
  apply NoDup_app; [exact Hd | repeat constructor; auto |].
  intros x Hx [<- | []]. now apply dict_get_none_keys in E.
Qed.

Lemma dict_set_in (V : Type) (d : pydict V) (k k' : string) (v v' : V) :
  In (k', v') (dict_set d k v) -> (k' = k /\ v' = v) \/ In (k', v') d.
Proof.
  induction d as [|[k0 v0] d IH]; simpl.
  - intros [[= <- <-] | []]. now left.
  - destruct (String.eqb k0 k) eqn:E; simpl.
    + apply String.eqb_eq in E. subst k0.
      intros [[= <- <-] | Hin]; [now left | right; now right].
    + intros [H | Hin]; [right; now left|].
      destruct (IH Hin); [now left | right; now right].
Qed.

Lemma dict_set_set (V : Type) (d : pydict V) (k : string) (v v' : V) :
  dict_set (dict_set d k v) k v' = dict_set d k v'.
Proof.
  induction d as [|[k0 v0] d IH]; simpl.
  - now rewrite String.eqb_refl.
  - destruct (String.eqb k0 k) eqn:E; simpl; rewrite E; [reflexivity|].
    now rewrite IH.
Qed.

(** X12. [update_sts_tokens] is a cache: afterwards the folder has a token;
    a folder that had one keeps it and the dictionary is unchanged; a new
    folder gets the token that Synapse issues; the tokens of the other
    folders stay. *)
Theorem sts_tokens_are_cached
    (w : World) (synapse_data_folder : string)
    (sts_tokens sts_tokens' : pydict StsToken) :
  update_sts_tokens w synapse_data_folder sts_tokens = Ok sts_tokens' ->
  (exists token,
      dict_getitem sts_tokens' synapse_data_folder = Ok token
      /\ (dict_get sts_tokens synapse_data_folder = None ->
          get_sts_storage_token w synapse_data_folder = Ok token))
  /\ (dict_get sts_tokens synapse_data_folder <> None ->
      sts_tokens' = sts_tokens)
  /\ (forall other,
         other <> synapse_data_folder ->
         dict_get sts_tokens' other = dict_get sts_tokens other).
Proof.
  unfold update_sts_tokens, dict_mem, dict_getitem.
  destruct (dict_get sts_tokens synapse_data_folder) as [token|] eqn:E.
  - intros [= <-]. rewrite E. split; [|split].
    + exists token. split; [reflexivity | discriminate].
    + reflexivity.
    + reflexivity.
  - destruct (get_sts_storage_token w synapse_data_folder) as [token|];
      simpl; [|discriminate].
    intros [= <-]. rewrite dict_get_set_same. split; [|split].
    + exists token. split; reflexivity.
    + intros H. now destruct H.
    + intros other Hother. apply dict_get_set_other. congruence.
Qed.

Lemma sts_tokens_are_cached_witness :
  exists token,
    dict_getitem
      [("syn0", [("aws_access_key_id", "old")]);
       ("syn1", [("aws_access_key_id", "key")])]
      "syn1"
    = Ok token
    /\ (dict_get [("syn0", [("aws_access_key_id", "old")])] "syn1" = None ->
        get_sts_storage_token
          (Sample.world Sample.archive_map Sample.online []) "syn1"
        = Ok token).
Proof.
  apply (proj1
           (@sts_tokens_are_cached
              (Sample.world Sample.archive_map Sample.online []) "syn1"
              [("syn0", [("aws_access_key_id", "old")])]
              [("syn0", [("aws_access_key_id", "old")]);
               ("syn1", [("aws_access_key_id", "key")])]
              eq_refl)).
Defined.

(** X13. Once a folder has its token, [update_sts_tokens] asks no service
    for it again: a second call returns the same dictionary in every world,
    also in one where Synapse issues no token. *)
Theorem sts_token_is_issued_once
    (w w' : World) (synapse_data_folder : string)
    (sts_tokens sts_tokens' : pydict StsToken) :
  update_sts_tokens w synapse_data_folder sts_tokens = Ok sts_tokens' ->
  update_sts_tokens w' synapse_data_folder sts_tokens' = Ok sts_tokens'.
Proof.
  unfold update_sts_tokens, dict_mem.
  destruct (dict_get sts_tokens synapse_data_folder) as [token|] eqn:E.
  - intros [= <-]. now rewrite E.
  - destruct (get_sts_storage_token w synapse_data_folder) as [token|];
      simpl; [|discriminate].
    intros [= <-]. now rewrite dict_get_set_same.
Qed.

Lemma sts_token_is_issued_once_witness :
  update_sts_tokens
    {| ssm_get_parameter := fun _ => Ok "auth-token";
       syn_login := fun _ => Ok tt;
       requests_get_archive_map := fun _ => Ok Sample.archive_map;
       get_sts_storage_token := fun _ => Raise (RequestException "synapse");
       s3_get_object := fun _ _ key => Sample.objects key;
       requests_get_json := Sample.online;
       jsonschema_iter_errors := fun _ _ _ => Ok [];
       start_workflow_run := fun _ => Ok "run-1";
       put_workflow_run_properties := fun _ _ _ => Ok tt |}
    "syn1" Sample.tokens
  = Ok Sample.tokens.
Proof.
  apply (@sts_token_is_issued_once
           (Sample.world Sample.archive_map Sample.online []) _ "syn1" []
           Sample.tokens).
  reflexivity.
Defined.

(** ** The dispatch loop *)

Lemma iter_M_app (A : Type) (body : A -> M unit) (xs ys : list A)
    (trace : list Effect) :
  iter_M body (xs ++ ys) trace
  = match iter_M body xs trace with
    | (trace', Ok _) => iter_M body ys trace'
    | (trace', Raise e) => (trace', Raise e)
    end.
Proof.
  revert trace. induction xs as [|x xs IH]; intros trace; simpl.
  - reflexivity.
  - unfold bindM. destruct (body x trace) as [trace' [[]|e]]; auto.
Qed.

Lemma iter_M_map (A B : Type) (f : A -> B) (body : B -> M unit) (xs : list A)
    (trace : list Effect) :
  iter_M body (map f xs) trace = iter_M (fun x => body (f x)) xs trace.
Proof.
  revert trace. induction xs as [|x xs IH]; intros trace; simpl.
  - reflexivity.
  - unfold bindM. destruct (body (f x) trace) as [trace' [[]|e]]; auto.
Qed.

Section Dispatch.

Variables (w : World) (namespace : option string).

Local Abbreviation start_batch :=
  (fun batch : string * (string * list MessageParameters) =>
     start_workflow w namespace (fst batch) (snd batch)).

Lemma dispatch_batches messages trace :
  dispatch w namespace messages trace
  = iter_M start_batch (batches messages) trace.
Proof.
  unfold dispatch, batches. revert trace.
  induction messages as [|[app of_app] messages IH]; intros trace; simpl.
  - reflexivity.
  - rewrite iter_M_app, iter_M_map. unfold bindM. simpl.
    destruct (iter_M (start_workflow w namespace app) of_app trace)
      as [trace' [[]|e]]; auto.
Qed.

Lemma start_batch_dispatchable batch trace :
  dispatchable w namespace batch ->
  start_batch batch trace
  = (trace ++ dispatch_calls w namespace batch, Ok tt).
Proof.
  unfold dispatchable, dispatch_calls, start_workflow, bindM, call.
  intros (run_id & -> & ->). now rewrite <- app_assoc.
Qed.

Lemma start_batch_fails batch trace e :
  start_workflow_run w
    (workflow_name_of namespace (fst batch) (fst (snd batch)))
  = Raise e
  \/ (exists run_id,
         start_workflow_run w
           (workflow_name_of namespace (fst batch) (fst (snd batch)))
         = Ok run_id
         /\ put_workflow_run_properties w
              (workflow_name_of namespace (fst batch) (fst (snd batch)))
              run_id (snd (snd batch))
            = Raise e) ->
  start_batch batch trace
  = (trace ++ dispatch_calls w namespace batch, Raise e).
Proof.
  unfold dispatch_calls, start_workflow, bindM, call.
  intros [-> | (run_id & -> & ->)]; [reflexivity|].
  now rewrite <- app_assoc.
Qed.

Lemma iter_dispatchable done trace :
  (forall batch, In batch done -> dispatchable w namespace batch) ->
  iter_M start_batch done trace
  = (trace ++ flat_map (dispatch_calls w namespace) done, Ok tt).
Proof.
  revert trace. induction done as [|batch done IH]; intros trace H; simpl.
  - now rewrite app_nil_r.
  - unfold bindM.
    rewrite start_batch_dispatchable by (apply H; now left).
    rewrite IH by (intros; apply H; now right).
    now rewrite <- app_assoc.
Qed.

End Dispatch.



(** X15. The dispatch is not undone: when a call for one batch raises, the
    invocation ends with that exception, the batches before it have been
    dispatched, the failing call has been made, and no later batch is
    touched. *)
Theorem dispatch_stops_at_first_failure
    (w : World) (environ : pydict string) (event : list Message.t)
    (auth_token : string) (archive_map : ArchiveMap.t) (st : LoopState)
    (done : list (string * (string * list MessageParameters)))
    (batch : string * (string * list MessageParameters))
    (later : list (string * (string * list MessageParameters))) (e : exn) :
  ssm_get_parameter w (dict_get environ "ssm_parameter_name") = Ok auth_token ->
  syn_login w auth_token = Ok tt ->
  get_archive_map w (dict_get environ "archive_map_version") = Ok archive_map ->
  for_each_M (process_record w environ archive_map) event
    {| messages := []; sts_tokens := [] |} []
  = ([], Ok st) ->
  batches (aggregate event) = done ++ batch :: later ->
  (forall b, In b done -> dispatchable w (dict_get environ "NAMESPACE") b) ->
  start_workflow_run w
    (workflow_name_of (dict_get environ "NAMESPACE") (fst batch)
       (fst (snd batch)))
  = Raise e
  \/ (exists run_id,
         start_workflow_run w
           (workflow_name_of (dict_get environ "NAMESPACE") (fst batch)
              (fst (snd batch)))
         = Ok run_id
         /\ put_workflow_run_properties w
              (workflow_name_of (dict_get environ "NAMESPACE") (fst batch)
                 (fst (snd batch)))
              run_id (snd (snd batch))
            = Raise e) ->
  run w environ event
  = (flat_map (dispatch_calls w (dict_get environ "NAMESPACE")) done
     ++ dispatch_calls w (dict_get environ "NAMESPACE") batch,
     Raise e).
Proof.
  intros Hssm Hlogin Hmap Hloop Hbatches Hdone Hfail.
  unfold run, lambda_handler, bindM, lift.
  rewrite Hssm, Hlogin, Hmap, Hloop.
  rewrite (records_messages _ _ _ _ _ _ Hloop). simpl.
  rewrite dispatch_batches. fold (aggregate event).
  rewrite Hbatches, iter_M_app, iter_dispatchable by exact Hdone.
  simpl. unfold bindM.
  now rewrite (start_batch_fails _ _ _ _ Hfail).
Qed.

Lemma dispatch_stops_at_first_failure_witness :
  run (DispatchSample.world "ns-app1-s2-S3ToJsonWorkflow") Sample.environ
    [Sample.rec1; Sample.rec2]
  = ([GlueStartWorkflowRun "ns-app1-s1-S3ToJsonWorkflow";
      GluePutWorkflowRunProperties "ns-app1-s1-S3ToJsonWorkflow" "run-1"
        [parameters_of Sample.rec1; parameters_of Sample.rec2]]
     ++ [GlueStartWorkflowRun "ns-app1-s2-S3ToJsonWorkflow"],
     Raise (ClientError "EntityNotFoundException")).
Proof.
  apply (@dispatch_stops_at_first_failure
           (DispatchSample.world "ns-app1-s2-S3ToJsonWorkflow") Sample.environ
           [Sample.rec1; Sample.rec2] "auth-token" Sample.archive_map
           {| messages := aggregate [Sample.rec1; Sample.rec2];
              sts_tokens := Sample.tokens |}
           [("app1",
             ("s1", [parameters_of Sample.rec1; parameters_of Sample.rec2]))]
           ("app1", ("s2", [parameters_of Sample.rec2])) []
           (ClientError "EntityNotFoundException"));
    try reflexivity.
  - intros b [<- | []]. exists "run-1". split; reflexivity.
  - left. reflexivity.
Defined.

(** ** The batches *)

Lemma add_study_eq app message_parameters (messages : Messages) study :
  add_study app message_parameters messages study
  = dict_set messages app
      match dict_get messages app with
      | Some of_app =>
          dict_set of_app study
            match dict_get of_app study with
            | Some records => records ++ [message_parameters]
            | None => [message_parameters]
            end
      | None => [(study, [message_parameters])]
      end.
Proof.
  unfold add_study, dict_mem.
  destruct (dict_get messages app) as [of_app|] eqn:E.
  - rewrite E. now destruct (dict_get of_app study).
  - rewrite dict_get_set_same. simpl. rewrite String.eqb_refl.
    now rewrite dict_set_set.
Qed.

Lemma add_study_well_formed app message_parameters messages study :
  well_formed messages ->
  well_formed (add_study app message_parameters messages study).
Proof.
  intros [Hkeys Hgroups]. rewrite add_study_eq. split.
  - now apply dict_set_nodup.
  - intros app' of_app' Hin.
    apply dict_set_in in Hin as [[-> ->] | Hin];
      [|now apply (Hgroups app' of_app')].
    destruct (dict_get messages app) as [of_app|] eqn:E.
    + apply dict_get_in in E. destruct (Hgroups _ _ E) as [Hstudies Hrecords].
      split; [now apply dict_set_nodup|].
      intros study' records Hin.
      apply dict_set_in in Hin as [[-> ->] | Hin];
        [|now apply (Hrecords study' records)].
      destruct (dict_get of_app study) as [l|]; [|discriminate].
      now destruct l.
    + split; [repeat constructor; simpl; tauto|].
      intros study' records [[= <- <-] | []]. discriminate.
Qed.

(** X16. The batches of every event are well formed: each app is a key
    once, each study of an app is a key once, and no batch is empty; so the
    dispatch loop visits each [(appId, studyId)] pair once and never sends
    an empty list of records. *)
Theorem batches_are_well_formed (event : list Message.t) :
  well_formed (aggregate event)
  /\ NoDup (map (fun batch => (fst batch, fst (snd batch)))
              (batches (aggregate event)))
  /\ forall batch,
      In batch (batches (aggregate event)) -> snd (snd batch) <> [].
Proof.
  assert (Hwf : well_formed (aggregate event)).
  { unfold aggregate.
    assert (Hfold :
              forall messages,
                well_formed messages ->
                well_formed (fold_left add_record event messages)).
    { induction event as [|message event IH]; intros messages H; [exact H|].
      simpl. apply IH. unfold add_record.
      generalize (dict_keys (Message.studyRecords message)).
      intros studies. revert messages H.
      induction studies as [|study studies IHs]; intros messages H; [exact H|].
      simpl. apply IHs. now apply add_study_well_formed. }
    apply Hfold. split; [constructor|]. intros app of_app []. }
  split; [exact Hwf|].
  revert Hwf. generalize (aggregate event). intros messages.
  unfold well_formed, batches.
  induction messages as [|[app of_app] messages IH]; intros [Hkeys Hgroups].
  - split; [constructor|]. intros batch [].
  - simpl in Hkeys. apply NoDup_cons_iff in Hkeys as [Hnew Hkeys].
    destruct IH as [IHnodup IHrecords].
    { split; [exact Hkeys|]. intros a o Hin. apply (Hgroups a o). now right. }
    destruct (Hgroups app of_app (or_introl eq_refl)) as [Hstudies Hrecords].
    split.
    + simpl. rewrite map_app, map_map. simpl.
      apply NoDup_app; [|exact IHnodup|].
      * clear -Hstudies. unfold dict_keys in Hstudies.
        induction of_app as [|[study records] of_app IHo]; simpl;
          [constructor|].
        simpl in Hstudies. apply NoDup_cons_iff in Hstudies as [Hs Hrest].
        constructor; [|now apply IHo].
        intros Hin. apply in_map_iff in Hin as ([s r] & Heq & Hin).
        simpl in Heq. injection Heq as Heq. subst s.
        apply Hs. apply in_map_iff. now exists (study, r).
      * intros [a s] Hin1 Hin2.
        apply in_map_iff in Hin1 as ([s' r'] & Heq1 & _).
        simpl in Heq1. injection Heq1 as Ha Hs'. subst a.
        apply in_map_iff in Hin2 as ([a' [s'' r'']] & Heq2 & Hin2).
        simpl in Heq2. injection Heq2 as Ha' Hs''. subst a'.
        apply in_flat_map in Hin2 as ([a'' o''] & Hin2 & Hin3).
        simpl in Hin3. apply in_map_iff in Hin3 as (x & Heq3 & _).
        injection Heq3 as Ha'' _. subst a''.
        apply Hnew. apply in_map_iff. now exists (app, o'').
    + intros batch Hin. simpl in Hin. apply in_app_or in Hin as [Hin | Hin].
      * apply in_map_iff in Hin as ([study records] & <- & Hin). simpl.
        now apply (Hrecords study records).
      * now apply IHrecords.
Qed.

Lemma arrivals_member app study event message :
  In message event ->
  Message.appId message = app ->
  In study (dict_keys (Message.studyRecords message)) ->
  In (parameters_of message) (arrivals app study event).
Proof.
  intros Hin Happ Hstudy. unfold arrivals. apply in_flat_map.
  exists message. split; [exact Hin|].
  rewrite Happ, String.eqb_refl. apply in_map_iff. exists study.
  split; [reflexivity|]. apply filter_In. split; [exact Hstudy|].
  apply String.eqb_refl.
Qed.

(** X17. A record without studies joins no batch, and only such records
    leave the batches empty: the batches of an event are empty exactly when
    no record of the event has a study. *)
Theorem no_study_no_batch (event : list Message.t) :
  aggregate event = []
  <-> forall message,
      In message event -> dict_keys (Message.studyRecords message) = [].
Proof.
  split.
  - intros Hempty message Hin.
    destruct (dict_keys (Message.studyRecords message)) as [|study studies]
      eqn:Hkeys; [reflexivity|].
    assert (Hgroup : group (aggregate event) (Message.appId message) study
                     = None) by now rewrite Hempty.
    unfold aggregate in Hgroup. rewrite group_add_records in Hgroup.
    simpl in Hgroup.
    assert (Hmem : In (parameters_of message)
                     (arrivals (Message.appId message) study event)).
    { apply arrivals_member; [exact Hin|reflexivity|].
      rewrite Hkeys. now left. }
    destruct (arrivals _ _ _); [contradiction|discriminate].
  - unfold aggregate. generalize (@nil (string * pydict (list MessageParameters))).
    induction event as [|message event IH]; intros messages H; simpl.
    + reflexivity.
    + unfold add_record at 2. rewrite (H message (or_introl eq_refl)). simpl.
      apply IH. intros m Hm. apply H. now right.
Qed.

(** * The first version of the lambda *)

Lemma get_s3_loc_inv w synapse_id auth_token s3_loc :
  get_s3_loc w synapse_id auth_token = Ok s3_loc ->
  exists f file_handle bucket key,
    sns_syn_get w synapse_id = Ok f
    /\ json_getitem f "_file_handle" = Ok file_handle
    /\ json_getitem file_handle "bucketName" = Ok bucket
    /\ json_getitem file_handle "key" = Ok key
    /\ s3_loc = [("bucket", bucket); ("key", key)].
Proof.
  unfold get_s3_loc.
  destruct (sns_syn_login w auth_token); simpl; [|discriminate].
  destruct (sns_syn_get w synapse_id) as [f|] eqn:Hf; simpl; [|discriminate].
  destruct (json_getitem f "_file_handle") as [file_handle|] eqn:Hh; simpl;
    [|discriminate].
  destruct (json_getitem file_handle "bucketName") as [bucket|] eqn:Hb; simpl;
    [|discriminate].
  destruct (json_getitem file_handle "key") as [key|] eqn:Hk; simpl;
    [|discriminate].
  intros [= <-]. exists f, file_handle, bucket, key. auto 10.
Qed.

Lemma handler_s3_loc_inv w sns_event s3_loc :
  handler_s3_loc w sns_event = Ok s3_loc ->
  exists records record sns message,
    json_getitem sns_event "Records" = Ok records
    /\ json_first records = Ok record
    /\ json_getitem record "Sns" = Ok sns
    /\ json_getitem sns "Message" = Ok message
    /\ exists auth_token, get_s3_loc w message auth_token = Ok s3_loc.
Proof.
  unfold handler_s3_loc.
  destruct (json_getitem sns_event "Records") as [records|] eqn:H1; simpl;
    [|discriminate].
  destruct (json_first records) as [record|] eqn:H2; simpl; [|discriminate].
  destruct (json_getitem record "Sns") as [sns|] eqn:H3; simpl;
    [|discriminate].
  destruct (json_getitem sns "Message") as [message|] eqn:H4; simpl;
    [|discriminate].
  destruct (sns_ssm_get_parameter w SSM_PARAMETER_NAME) as [token|]; simpl;
    [|discriminate].
  destruct (json_getitem token "Parameter") as [parameter|]; simpl;
    [|discriminate].
  destruct (json_getitem parameter "Value") as [auth_token|]; simpl;
    [|discriminate].
  intros H. exists records, record, sns, message.
  repeat (split; [reflexivity || assumption|]). now exists auth_token.
Qed.

(** X18. [handler] reads the first record of the event and no other: two
    events whose [Records] begin with the same record are handled alike, and
    an event whose [Records] is an empty list ends in an [IndexError] before
    any service is called. *)
Theorem handler_reads_first_record (w : SnsWorld) :
  (forall sns_event sns_event' record rest rest',
      json_getitem sns_event "Records" = Ok (JList (record :: rest)) ->
      json_getitem sns_event' "Records" = Ok (JList (record :: rest')) ->
      handler w sns_event = handler w sns_event')
  /\ (forall sns_event,
         json_getitem sns_event "Records" = Ok (JList []) ->
         handler w sns_event = ([], Raise IndexError)).
Proof.
  split.
  - intros sns_event sns_event' record rest rest' H H'.
    unfold handler, handler_s3_loc. now rewrite H, H'.
  - intros sns_event H. unfold handler, handler_s3_loc. now rewrite H.
Qed.

Lemma handler_reads_first_record_witness :
  handler SnsSample.world
    (SnsSample.event [SnsSample.record "syn1"; SnsSample.record "syn2"])
  = handler SnsSample.world (SnsSample.event [SnsSample.record "syn1"])
  /\ handler SnsSample.world (SnsSample.event []) = ([], Raise IndexError).
Proof.
  split.
  - apply (proj1 (handler_reads_first_record SnsSample.world)
             _ _ (SnsSample.record "syn1") [SnsSample.record "syn2"] []);
      reflexivity.
  - apply (proj2 (handler_reads_first_record SnsSample.world)). reflexivity.
Defined.

(** X19. [handler] calls Glue only after it has found the S3 location of the
    Synapse file that the message of the first record names: whenever a call
    was made, [sns_event['Records'][0]['Sns']['Message']] exists, the file
    that Synapse returns for it has a file handle with [bucketName] and
    [key], the first call is the start of the workflow
    [s3_to_json_workflow], and the run properties of the second call, if it
    was made, are this bucket and this key. *)
Theorem workflow_starts_after_location
    (w : SnsWorld) (sns_event : json) (trace : list SnsEffect)
    (r : result unit) :
  handler w sns_event = (trace, r) ->
  trace <> [] ->
  exists records record sns message f file_handle bucket key,
    json_getitem sns_event "Records" = Ok records
    /\ json_first records = Ok record
    /\ json_getitem record "Sns" = Ok sns
    /\ json_getitem sns "Message" = Ok message
    /\ sns_syn_get w message = Ok f
    /\ json_getitem f "_file_handle" = Ok file_handle
    /\ json_getitem file_handle "bucketName" = Ok bucket
    /\ json_getitem file_handle "key" = Ok key
    /\ (trace = [SnsStartWorkflowRun GLUE_WORKFLOW_NAME]
        \/ exists run_id,
            trace
            = [SnsStartWorkflowRun GLUE_WORKFLOW_NAME;
               SnsPutWorkflowRunProperties GLUE_WORKFLOW_NAME run_id
                 [("input_bucket", bucket); ("input_key", key)]]).
Proof.
  unfold handler.
  destruct (handler_s3_loc w sns_event) as [s3_loc|] eqn:Hloc;
    [|intros [= <- _] H; now destruct H].
  destruct (handler_s3_loc_inv _ _ Hloc)
    as (records & record & sns & message & H1 & H2 & H3 & H4 & auth & Hget).
  destruct (get_s3_loc_inv _ _ _ Hget)
    as (f & file_handle & bucket & key & Hf & Hh & Hb & Hk & ->).
  intros H _. exists records, record, sns, message, f, file_handle, bucket, key.
  repeat (split; [assumption|]).
  destruct (sns_start_workflow_run w GLUE_WORKFLOW_NAME) as [workflow_run|];
    [|injection H as <- _; now left].
  destruct (json_getitem workflow_run "RunId") as [run_id|]; simpl in H;
    [|injection H as <- _; now left].
  injection H as <- _. right. now exists run_id.
Qed.

Lemma workflow_starts_after_location_witness :
  exists records record sns message f file_handle bucket key,
    json_getitem (SnsSample.event [SnsSample.record "syn1"]) "Records"
    = Ok records
    /\ json_first records = Ok record
    /\ json_getitem record "Sns" = Ok sns
    /\ json_getitem sns "Message" = Ok message
    /\ sns_syn_get SnsSample.world message = Ok f
    /\ json_getitem f "_file_handle" = Ok file_handle
    /\ json_getitem file_handle "bucketName" = Ok bucket
    /\ json_getitem file_handle "key" = Ok key
    /\ ([SnsStartWorkflowRun GLUE_WORKFLOW_NAME;
         SnsPutWorkflowRunProperties GLUE_WORKFLOW_NAME (JStr "run-1")
           [("input_bucket", JStr "bucket"); ("input_key", JStr "a/b.zip")]]
        = [SnsStartWorkflowRun GLUE_WORKFLOW_NAME]
        \/ exists run_id,
            [SnsStartWorkflowRun GLUE_WORKFLOW_NAME;
             SnsPutWorkflowRunProperties GLUE_WORKFLOW_NAME (JStr "run-1")
               [("input_bucket", JStr "bucket");
                ("input_key", JStr "a/b.zip")]]
            = [SnsStartWorkflowRun GLUE_WORKFLOW_NAME;
               SnsPutWorkflowRunProperties GLUE_WORKFLOW_NAME run_id
                 [("input_bucket", bucket); ("input_key", key)]]).
Proof.
  apply (@workflow_starts_after_location SnsSample.world
           (SnsSample.event [SnsSample.record "syn1"]) _ (Ok tt)).
  - reflexivity.
  - discriminate.
Defined.

Lemma batches_are_well_formed_witness :
  snd (snd ("app1", ("s2", [parameters_of Sample.rec2]))) <> [].
Proof.
  apply (proj2 (proj2 (batches_are_well_formed [Sample.rec1; Sample.rec2]))
           ("app1", ("s2", [parameters_of Sample.rec2]))).
  simpl. right. now left.
Defined.

Lemma no_study_no_batch_witness :
  aggregate [Sample.message "k2" []; Sample.message "k1" []] = [].
Proof.
  apply (proj2 (no_study_no_batch
                  [Sample.message "k2" []; Sample.message "k1" []])).
  intros message [<- | [<- | []]]; reflexivity.
Defined.
